(** * Battery monitor: the notification state machine of [main.go]

    A shallow embedding of the daemon's configuration loading, of its D-Bus
    notifier and of the per-tick [check] of the [Monitor], followed by the
    properties of the state machine.

    Conventions.
    - Go's [int], [uint32] and [byte] values are [Z]; the program only
      compares them, so no wrap-around is ever computed.
    - A Go result pair [(v, err)] is a pair [(v, option error)], [None] for
      the [nil] error; as in Go the value is present also when [err] is set.
    - The collaborators behind the [Battery] and [Notifier] interfaces are
      explicit arguments, and every call made on them, every log line and
      every sound that is started is recorded, in order, in a list of
      [Effect]s. *)

From Stdlib Require Import ZArith String List Bool Lia.
From stdpp Require Import base option strings gmap.
Import ListNotations.

Local Open Scope string_scope.
Local Open Scope list_scope.
Local Open Scope Z_scope.

(** ** Errors *)

(** Go's [error] values: a message, or an error wrapped by
    [fmt.Errorf("...: %w", err)]. *)
Inductive error : Type :=
| errorString (msg : string)
| wrapError (format : string) (err : error).

(** ** Data model (the structs of main.go) *)

Record BatteryLevel : Type := mkBatteryLevel {
  Threshold : Z;
  Title : string;
  Icon : string;
  Sound : string;
  Message : string
}.

Record Config : Type := mkConfig {
  AppName : string;
  PollInterval : Z;
  LowBattery : BatteryLevel;
  CriticalBattery : BatteryLevel
}.

(** The zero values Go gives to [var level BatteryLevel] and
    [var config Config]. *)
Definition zeroBatteryLevel : BatteryLevel := mkBatteryLevel 0 "" "" "" "".
Definition zeroConfig : Config := mkConfig "" 0 zeroBatteryLevel zeroBatteryLevel.

(** ** loadConfig *)

Module Loader.
Section LoadConfig.
(** The file system and the YAML decoder are outside the repository:
    [ReadFile path] is [os.ReadFile], [Unmarshal data c] is
    [yaml.Unmarshal(data, &c)], returning the filled structure and the
    decoder's error. *)
Variable ReadFile : string -> string * option error.
Variable Unmarshal : string -> Config -> Config * option error.

Definition loadConfig (path : string) : option Config * option error :=
  let '(data, err) := ReadFile path in
  match err with
  | Some e => (None, Some e)
  | None =>
    let config := zeroConfig in
    let '(config, err) := Unmarshal data config in
    match err with
    | Some e => (None, Some e)
    | None =>
      (* Set default poll interval *)
      let config :=
        if Z.eqb (PollInterval config) 0
        then mkConfig (AppName config) 5 (LowBattery config) (CriticalBattery config)
        else config in
      (* Set default app name *)
      let config :=
        if String.eqb (AppName config) ""
        then mkConfig "Battery Monitor" (PollInterval config)
                      (LowBattery config) (CriticalBattery config)
        else config in
      (Some config, None)
    end
  end.
End LoadConfig.
End Loader.

(** ** The D-Bus notifier *)

(** Values wrapped by [dbus.MakeVariant] in the hints of a notification. *)
Inductive Variant : Type :=
| VByte (b : Z)
| VBool (b : bool).

(** Arguments of a method call on the bus object. *)
Inductive Arg : Type :=
| AString (s : string)
| AUint32 (n : Z)
| AInt32 (n : Z)
| AStrings (l : list string)
| AHints (h : gmap string Variant).

Record MethodCall : Type := mkMethodCall {
  method : string;
  flags : Z;
  args : list Arg
}.

(** What [obj.Call] hands back: [Err] is [call.Err], and [Store] is the
    outcome of [call.Store(&id)], the identifier left in [id] and the error
    returned. *)
Record Call : Type := mkCall {
  Err : option error;
  Store : Z * option error
}.

(** The bus object is the transport: it answers a call according to the calls
    it has seen, and [calls] records every call made on it, oldest first. *)
Record BusObject : Type := mkBusObject {
  respond : list MethodCall -> MethodCall -> Call;
  calls : list MethodCall
}.

Definition obj_Call (o : BusObject) (m : string) (fl : Z) (a : list Arg)
  : Call * BusObject :=
  let c := mkMethodCall m fl a in
  (respond o (calls o) c, mkBusObject (respond o) (calls o ++ [c])).

Record DBusNotifier : Type := mkDBusNotifier {
  obj : BusObject;
  appName : string
}.

Module DBus.

(** The [switch urgency] of [Send]. *)
Definition urgencyLevel (urgency : string) : Z :=
  if String.eqb urgency "critical" then 2
  else if String.eqb urgency "normal" then 1
  else 0.

Definition hints (urgency : string) : gmap string Variant :=
  <["urgency" := VByte (urgencyLevel urgency)]>
    (<["resident" := VBool true]>
      (<["transient" := VBool false]> ∅)).

Definition notify (n : DBusNotifier) (summary body urgency icon : string)
  : list Arg :=
  [ AString (appName n); AUint32 0; AString icon; AString summary;
    AString body; AStrings []; AHints (hints urgency); AInt32 0 ].

Definition Send (n : DBusNotifier) (summary body urgency icon : string)
  : (Z * option error) * DBusNotifier :=
  let '(call, o) :=
    obj_Call (obj n) "org.freedesktop.Notifications.Notify" 0
             (notify n summary body urgency icon) in
  let n := mkDBusNotifier o (appName n) in
  match Err call with
  | Some e => ((0, Some e), n)
  | None => (Store call, n)
  end.

Definition Close (n : DBusNotifier) (id : Z) : option error * DBusNotifier :=
  if Z.eqb id 0 then (None, n)
  else
    let '(call, o) :=
      obj_Call (obj n) "org.freedesktop.Notifications.CloseNotification" 0
               [AUint32 id] in
    (Err call, mkDBusNotifier o (appName n)).

End DBus.

(** ** Interfaces *)

(** [Battery]: the two reads of the interface. A value of [B] is the battery
    as one check finds it; the poll loop meets a new one at every tick. *)
Class Battery (B : Type) : Type := {
  Capacity : B -> Z * option error;
  IsCharging : B -> bool * option error
}.

(** [Notifier]: both methods act on the notification service, so they return
    the notifier after the call. *)
Class Notifier (N : Type) : Type := {
  Send : N -> string -> string -> string -> string -> (Z * option error) * N;
  Close : N -> Z -> option error * N
}.

#[export] Instance DBusNotifier_Notifier : Notifier DBusNotifier := {
  Send := DBus.Send;
  Close := DBus.Close
}.

(** A battery given by the answers of its two reads. *)
Record Reading : Type := mkReading {
  status : bool * option error;
  charge : Z * option error
}.

#[export] Instance Reading_Battery : Battery Reading := {
  Capacity := charge;
  IsCharging := status
}.

(** ** Observable effects of a check *)

Inductive LogArg : Type :=
| LInt (n : Z)
| LStr (s : string)
| LErr (e : error).

Inductive Effect : Type :=
| EIsCharging (res : bool * option error)
| ECapacity (res : Z * option error)
| ESend (summary body urgency icon : string) (res : Z * option error)
| EClose (id : Z) (res : option error)
| EPlay (soundFile : string)
| ELog (format : string) (args : list LogArg).

Definition is_send (e : Effect) : bool :=
  match e with ESend _ _ _ _ _ => true | _ => false end.
Definition is_close (e : Effect) : bool :=
  match e with EClose _ _ => true | _ => false end.
Definition is_play (e : Effect) : bool :=
  match e with EPlay _ => true | _ => false end.
Definition is_capacity (e : Effect) : bool :=
  match e with ECapacity _ => true | _ => false end.
Definition is_notifier_call (e : Effect) : bool := is_send e || is_close e.

(** What lies outside the repository and is used by the monitor:
    [fmt.Sprintf] with one integer argument, [os.UserHomeDir] and
    [filepath.Join]. *)
Record Runtime : Type := mkRuntime {
  Sprintf : string -> Z -> string;
  UserHomeDir : string * option error;
  Join : string -> string -> string
}.

(** ** The ticker's interval *)

(** The value a computation on Go's [int64] leaves: the integer taken modulo
    2^64 into the range from -2^63 to 2^63 - 1. *)
Definition wrap64 (z : Z) : Z := (z + 2 ^ 63) mod 2 ^ 64 - 2 ^ 63.

(** [time.Second], in nanoseconds. *)
Definition Second : Z := 1000000000.

(** [time.Duration(m.config.PollInterval) * time.Second]: the conversion
    to [int64] and the product in [int64], which wraps around. *)
Definition tickerInterval (pollInterval : Z) : Z :=
  wrap64 (wrap64 pollInterval * Second).

(** ** The monitor *)

Section Monitor.
Context {B N : Type} {HB : Battery B} {HN : Notifier N}.
Variable rt : Runtime.

Record Monitor : Type := mkMonitor {
  config : Config;
  battery : B;
  notifier : N;
  currentLevel : string; (* "normal", "low", "critical" *)
  notificationID : Z
}.

(** A method of [*Monitor]: it reads and updates the monitor and leaves the
    effects it had, in order. *)
Definition Act (A : Type) : Type := Monitor -> (A * Monitor) * list Effect.

#[export] Instance Act_ret : MRet Act := fun A a m => ((a, m), []).

#[export] Instance Act_bind : MBind Act := fun A A' f c m =>
  let '((a, m1), t1) := c m in
  let '((b, m2), t2) := f a m1 in
  ((b, m2), t1 ++ t2).

Definition get {A : Type} (field : Monitor -> A) : Act A :=
  fun m => ((field m, m), []).

Definition setNotificationID (id : Z) : Act unit := fun m =>
  ((tt, mkMonitor (config m) (battery m) (notifier m) (currentLevel m) id), []).

Definition setCurrentLevel (level : string) : Act unit := fun m =>
  ((tt, mkMonitor (config m) (battery m) (notifier m) level (notificationID m)), []).

Definition emit (e : Effect) : Act unit := fun m => ((tt, m), [e]).

Definition logPrintf (format : string) (a : list LogArg) : Act unit :=
  emit (ELog format a).

Definition battery_IsCharging : Act (bool * option error) := fun m =>
  let r := IsCharging (battery m) in ((r, m), [EIsCharging r]).

Definition battery_Capacity : Act (Z * option error) := fun m =>
  let r := Capacity (battery m) in ((r, m), [ECapacity r]).

Definition notifier_Send (summary body urgency icon : string)
  : Act (Z * option error) := fun m =>
  let '(r, n) := Send (notifier m) summary body urgency icon in
  ((r, mkMonitor (config m) (battery m) n (currentLevel m) (notificationID m)),
   [ESend summary body urgency icon r]).

Definition notifier_Close (id : Z) : Act (option error) := fun m =>
  let '(r, n) := Close (notifier m) id in
  ((r, mkMonitor (config m) (battery m) n (currentLevel m) (notificationID m)),
   [EClose id r]).

Definition when (b : bool) (c : Act unit) : Act unit :=
  if b then c else mret tt.

(** The expansion of a leading [~/], as [playSound] and [main] do it. *)
Definition expandHome (path : string) : string :=
  if String.prefix "~/" path then
    match UserHomeDir rt with
    | (home, None) => Join rt home (String.substring 2 (String.length path - 2) path)
    | (_, Some _) => path
    end
  else path.

(** [playSound]: nothing for the empty path; otherwise the home directory is
    expanded and the players are tried in a goroutine of its own, which the
    monitor never waits for: [EPlay] records that it was started. *)
Definition playSound (soundFile : string) : Act unit :=
  if String.eqb soundFile "" then mret tt
  else
    let soundFile := expandHome soundFile in
    emit (EPlay soundFile).

(** The level a capacity falls in and the [BatteryLevel] that goes with it
    (the [if] chain of [check] that sets [newLevel] and [level]). *)
Definition newLevel (c : Config) (capacity : Z) : string * BatteryLevel :=
  if capacity <=? Threshold (CriticalBattery c) then ("critical", CriticalBattery c)
  else if capacity <=? Threshold (LowBattery c) then ("low", LowBattery c)
  else ("normal", zeroBatteryLevel).

Definition check : Act (option error) :=
  '(charging, err) ← battery_IsCharging;
  match err with
  | Some e => mret (Some (wrapError "read charging status: %w" e))
  | None =>
    if charging : bool then
      (* Clear notification if charging *)
      level ← get currentLevel;
      when (negb (String.eqb level "normal"))
        (logPrintf "Power connected, clearing notifications" [];;
         id ← get notificationID;
         err ← notifier_Close id;
         match err with
         | Some e => logPrintf "Failed to close notification: %v" [LErr e]
         | None => mret tt
         end;;
         setNotificationID 0;;
         setCurrentLevel "normal");;
      mret None
    else
      '(capacity, err) ← battery_Capacity;
      match err with
      | Some e => mret (Some (wrapError "read capacity: %w" e))
      | None =>
        logPrintf "Battery: %d%% (discharging)" [LInt capacity];;
        c ← get config;
        let '(newLevel, level) := newLevel c capacity in
        current ← get currentLevel;
        (if negb (String.eqb newLevel current) && negb (String.eqb newLevel "normal") then
           logPrintf "Battery level changed to: %s (%d%%)" [LStr newLevel; LInt capacity];;
           let title := Title level in
           let message := Sprintf rt (Message level) capacity in
           '(id, err) ← notifier_Send title message "critical" (Icon level);
           match err with
           | Some e => logPrintf "Failed to send notification: %v" [LErr e]
           | None =>
             (* Close old notification explicitly *)
             old ← get notificationID;
             when (negb (Z.eqb old 0) && negb (Z.eqb old id))
               (notifier_Close old;; mret tt);;
             setNotificationID id
           end;;
           playSound (Sound level);;
           setCurrentLevel newLevel
         else if String.eqb newLevel "normal" && negb (String.eqb current "normal") then
           (* Battery recovered above thresholds *)
           id ← get notificationID;
           err ← notifier_Close id;
           match err with
           | Some e => logPrintf "Failed to close notification: %v" [LErr e]
           | None => mret tt
           end;;
           setNotificationID 0;;
           setCurrentLevel "normal"
         else mret tt);;
        mret None
      end
  end.

(** The monitor that [main] builds. *)
Definition newMonitor (c : Config) (b : B) (n : N) : Monitor :=
  mkMonitor c b n "normal" 0.

(** Between two checks the battery changes on its own: [meet b] puts the
    monitor in front of the battery [b] of the coming check. *)
Definition meet (b : B) : Act unit := fun m =>
  ((tt, mkMonitor (config m) b (notifier m) (currentLevel m) (notificationID m)), []).

(** One turn of the poll loop of [run]: the check, on the battery as this
    turn finds it, and the log line of a failed check. *)
Definition tick (b : B) : Act unit :=
  meet b;;
  err ← check;
  match err with
  | Some e => logPrintf "Check failed: %v" [LErr e]
  | None => mret tt
  end.

Fixpoint ticks (bs : list B) : Act unit :=
  match bs with
  | [] => mret tt
  | b :: bs => tick b;; ticks bs
  end.

(** How the model of [run] ends: with the panic of [time.NewTicker], or cut
    while the daemon is still polling, the batteries of the model used up. *)
Inductive Stop : Type :=
| Panicked (msg : string)
| Cut.

(** [run], cut after as many checks as [bs] is long: the first element is
    the battery at the initial check, the others at the ticker's turns.
    Between the two [time.NewTicker] is given the poll interval in
    nanoseconds and panics unless it is positive. *)
Definition run (bs : list B) : Act Stop :=
  c ← get config;
  logPrintf "Starting battery monitor (poll interval: %ds)" [LInt (PollInterval c)];;
  logPrintf "Low threshold: %d%%, Critical threshold: %d%%"
    [LInt (Threshold (LowBattery c)); LInt (Threshold (CriticalBattery c))];;
  match bs with
  | [] => mret Cut
  | b :: later =>
    (* Initial check *)
    tick b;;
    c ← get config;
    if tickerInterval (PollInterval c) <=? 0
    then mret (Panicked "non-positive interval for NewTicker")
    else ticks later;; mret Cut
  end.

End Monitor.

Arguments Monitor : clear implicits.
Arguments Act : clear implicits.

(** The parts of the outcome of an action. *)
Definition value_of {S A : Type} (r : (A * S) * list Effect) : A := fst (fst r).
Definition state_of {S A : Type} (r : (A * S) * list Effect) : S := snd (fst r).
Definition effects_of {S A : Type} (r : (A * S) * list Effect) : list Effect := snd r.

Definition sends (t : list Effect) : list Effect := List.filter is_send t.
Definition closes (t : list Effect) : list Effect := List.filter is_close t.
Definition notifier_calls (t : list Effect) : list Effect :=
  List.filter is_notifier_call t.

(** What a call of [playSound] leaves in the effects. *)
Definition played (rt : Runtime) (soundFile : string) : list Effect :=
  if String.eqb soundFile "" then [] else [EPlay (expandHome rt soundFile)].

(** The log line that follows a failed [Close]. *)
Definition close_log (r : option error) : list Effect :=
  match r with
  | Some e => [ELog "Failed to close notification: %v" [LErr e]]
  | None => []
  end.

(** A send that succeeded and returned an identifier other than 0; effects
    that are no send pass. *)
Definition send_ok (e : Effect) : bool :=
  match e with
  | ESend _ _ _ _ (id, None) => negb (Z.eqb id 0)
  | ESend _ _ _ _ (_, Some _) => false
  | _ => true
  end.

(** ** The specification's vocabulary *)

(** The level classifier as the specification words it: charging gives
    [normal]; otherwise the critical threshold is tested before the low one. *)
Definition classify (capacity : Z) (charging : bool)
    (lowSpec criticalSpec : BatteryLevel) : string :=
  if charging then "normal"
  else if capacity <=? Threshold criticalSpec then "critical"
  else if capacity <=? Threshold lowSpec then "low"
  else "normal".

(** Severity of a level: normal < low < critical. *)
Definition severity (level : string) : nat :=
  if String.eqb level "critical" then 2%nat
  else if String.eqb level "low" then 1%nat
  else 0%nat.

(** The invariant the specification gives for the monitor state: a
    notification is active exactly when the level is not normal. *)
Definition invariant {B N : Type} (m : Monitor B N) : Prop :=
  notificationID m <> 0 <-> currentLevel m <> "normal".

(** Its half that every check keeps: at level normal no notification is
    active. *)
Definition normal_is_clear {B N : Type} (m : Monitor B N) : Prop :=
  currentLevel m = "normal" -> notificationID m = 0.

(** ** Scenarios *)

Module Scenario.

(** Thresholds low = 20 and critical = 10. *)
Definition cfg : Config :=
  mkConfig "Battery Monitor" 5
    (mkBatteryLevel 20 "Battery low" "battery-low" "" "Battery at %d%%")
    (mkBatteryLevel 10 "Battery critical" "battery-caution" "~/alarm.wav"
                    "Battery at %d%%, plug in now").

(** A runtime whose [Sprintf] leaves the template as it is. *)
Definition rt : Runtime :=
  mkRuntime (fun format _ => format) ("/home/user", None)
            (fun dir file => String.append dir (String.append "/" file)).

(** A notification service that numbers its notifications 1, 2, ... *)
Definition bus_up : BusObject :=
  mkBusObject (fun seen _ => mkCall None (Z.of_nat (List.length seen) + 1, None)) [].

(** A notification service that cannot be reached. *)
Definition bus_down : BusObject :=
  mkBusObject (fun _ _ => mkCall (Some (errorString "connection closed")) (0, None)) [].

Definition discharging (capacity : Z) : Reading :=
  mkReading (false, None) (capacity, None).

Definition charging (capacity : Z) : Reading :=
  mkReading (true, None) (capacity, None).

Definition unreadable : Reading :=
  mkReading (false, Some (errorString "no such file")) (0, None).

Definition unreadable_capacity : Reading :=
  mkReading (false, None) (0, Some (errorString "no such file")).

Definition start (bus : BusObject) (b : Reading) : Monitor Reading DBusNotifier :=
  newMonitor cfg b (mkDBusNotifier bus "Battery Monitor").

(** A monitor at level [level] with notification [id] on display. *)
Definition at_level (bus : BusObject) (b : Reading) (level : string) (id : Z)
  : Monitor Reading DBusNotifier :=
  mkMonitor cfg b (mkDBusNotifier bus "Battery Monitor") level id.

(** A configuration file that sets a negative poll interval, and what the
    decoder makes of it. *)
Definition ReadFile (path : string) : string * option error :=
  ("poll_interval: -3", None).

Definition Unmarshal (data : string) (c : Config) : Config * option error :=
  (mkConfig (AppName c) (-3) (LowBattery c) (CriticalBattery c), None).

(** A configuration file that sets neither key. *)
Definition Unmarshal_empty (data : string) (c : Config) : Config * option error :=
  (c, None).

End Scenario.

(** ** The sysfs battery *)

(** The files as one moment finds them: [fs_Stat] is the error of [os.Stat],
    [fs_ReadFile] is [os.ReadFile]. *)
Record Files : Type := mkFiles {
  fs_Stat : string -> option error;
  fs_ReadFile : string -> string * option error
}.

(** The two library functions [SysfsBattery] applies to what it reads:
    [strings.TrimSpace] and [strconv.Atoi]. *)
Record Lib : Type := mkLib {
  TrimSpace : string -> string;
  Atoi : string -> Z * option error
}.

Record SysfsBattery : Type := mkSysfsBattery {
  capacityPath : string;
  statusPath : string
}.

Module Sysfs.

Definition batteries : list string :=
  [ "/sys/class/power_supply/BAT0";
    "/sys/class/power_supply/BAT1";
    "/sys/class/power_supply/battery" ].

(** The [for] loop of [NewSysfsBattery] over the candidates that are left. *)
Fixpoint probe (rt : Runtime) (fs : Files) (paths : list string)
  : (option SysfsBattery * option error) * list Effect :=
  match paths with
  | [] => ((None, Some (errorString "no battery found")), [])
  | path :: rest =>
    let capacityPath := Join rt path "capacity" in
    let statusPath := Join rt path "status" in
    match fs_Stat fs capacityPath with
    | None =>
      match fs_Stat fs statusPath with
      | None =>
        ((Some (mkSysfsBattery capacityPath statusPath), None),
         [ELog "Found battery at: %s" [LStr path]])
      | Some _ => probe rt fs rest
      end
    | Some _ => probe rt fs rest
    end
  end.

Definition NewSysfsBattery (rt : Runtime) (fs : Files)
  : (option SysfsBattery * option error) * list Effect :=
  probe rt fs batteries.

Definition Capacity (lib : Lib) (fs : Files) (b : SysfsBattery) : Z * option error :=
  let '(data, err) := fs_ReadFile fs (capacityPath b) in
  match err with
  | Some e => (0, Some e)
  | None =>
    let '(capacity, err) := Atoi lib (TrimSpace lib data) in
    match err with
    | Some e => (0, Some e)
    | None => (capacity, None)
    end
  end.

Definition IsCharging (lib : Lib) (fs : Files) (b : SysfsBattery) : bool * option error :=
  let '(data, err) := fs_ReadFile fs (statusPath b) in
  match err with
  | Some e => (false, Some e)
  | None =>
    let status := TrimSpace lib data in
    (String.eqb status "Charging" || String.eqb status "Full", None)
  end.

End Sysfs.

(** The sysfs battery in front of the files of one check. *)
Record SysfsReading : Type := mkSysfsReading {
  device : SysfsBattery;
  files : Files
}.

Definition SysfsReading_Battery (lib : Lib) : Battery SysfsReading := {|
  Capacity := fun r => Sysfs.Capacity lib (files r) (device r);
  IsCharging := fun r => Sysfs.IsCharging lib (files r) (device r)
|}.

(** ** Start-up *)

(** A connection to the session bus, by what [conn.Object] gives for a
    destination and an object path. *)
Definition Conn : Type := string -> string -> BusObject.

(** [NewDBusNotifier]; its argument [SessionBus] is the result of
    [dbus.SessionBus()]. *)
Definition NewDBusNotifier (SessionBus : Conn * option error) (appName : string)
  : option DBusNotifier * option error :=
  let '(conn, err) := SessionBus in
  match err with
  | Some e => (None, Some e)
  | None =>
    let obj := conn "org.freedesktop.Notifications" "/org/freedesktop/Notifications" in
    (Some (mkDBusNotifier obj appName), None)
  end.

(** What [main] is started in: its arguments, the files, the YAML decoder
    and the session bus. *)
Record Host : Type := mkHost {
  Args : list string;
  host_files : Files;
  yaml_Unmarshal : string -> Config -> Config * option error;
  SessionBus : Conn * option error
}.

(** How the start-up of [main] ends: in [log.Fatalf], with a nil pointer
    where [main] needs a value (the configuration it dereferences, or a
    collaborator of the monitor), or with the monitor that [run] is called
    on. *)
Inductive Startup : Type :=
| Fatal (format : string) (e : error)
| NilPointer
| Started (m : Monitor SysfsReading DBusNotifier).

(** The path of the configuration file: the first argument if there is one,
    with its home directory expanded. *)
Definition configPath (rt : Runtime) (args : list string) : string :=
  let configPath := "battery-monitor.yaml" in
  let configPath :=
    match args with
    | _ :: arg :: _ => arg
    | _ => configPath
    end in
  expandHome rt configPath.

(** [main] up to the call of [run]. *)
Definition startup (rt : Runtime) (h : Host) : Startup * list Effect :=
  let configPath := configPath rt (Args h) in
  let '(config, err) :=
    Loader.loadConfig (fs_ReadFile (host_files h)) (yaml_Unmarshal h) configPath in
  match err with
  | Some e => (Fatal "Failed to load config: %v" e, [])
  | None =>
    let '((battery, err), found) := Sysfs.NewSysfsBattery rt (host_files h) in
    match err with
    | Some e => (Fatal "Failed to find battery: %v" e, found)
    | None =>
      match config with
      | None => (NilPointer, found)
      | Some config =>
        let '(notifier, err) := NewDBusNotifier (SessionBus h) (AppName config) in
        match err with
        | Some e => (Fatal "Failed to create notifier: %v" e, found)
        | None =>
          match battery, notifier with
          | Some battery, Some notifier =>
            (Started (mkMonitor config (mkSysfsReading battery (host_files h))
                                notifier "normal" 0),
             found)
          | _, _ => (NilPointer, found)
          end
        end
      end
    end
  end.

(** How the model of [main] ends: the start-up did not get as far as the
    monitor; [run] panicked in [time.NewTicker], which ends the process; or
    the daemon is still polling where the model is cut. The last two come
    with the monitor as it is then. *)
Inductive Daemon : Type :=
| Exited (s : Startup)
| Crashed (msg : string) (m : Monitor SysfsReading DBusNotifier)
| Polling (m : Monitor SysfsReading DBusNotifier).

(** [main], cut after as many checks as [later] is long plus one: the
    initial check finds the files of the start-up, the ticker's turns find
    those of [later]. *)
Definition main (rt : Runtime) (lib : Lib) (h : Host) (later : list Files)
  : Daemon * list Effect :=
  let '(s, t) := startup rt h in
  match s with
  | Started m =>
    let r := run (HB := SysfsReading_Battery lib) rt
                 (List.map (mkSysfsReading (device (battery m))) (host_files h :: later)) m in
    match value_of r with
    | Panicked msg => (Crashed msg (state_of r), t ++ effects_of r)
    | Cut => (Polling (state_of r), t ++ effects_of r)
    end
  | _ => (Exited s, t)
  end.

(** The batteries that [run] checks, of those the model holds ready: all of
    them when the ticker starts, the first alone when it panics. *)
Definition polled (c : Config) {B : Type} (bs : list B) : list B :=
  match bs with
  | [] => []
  | b :: later => if tickerInterval (PollInterval c) <=? 0 then [b] else bs
  end.

(** How [run] ends on them. *)
Definition run_end (c : Config) {B : Type} (bs : list B) : Stop :=
  match bs with
  | [] => Cut
  | _ :: _ =>
    if tickerInterval (PollInterval c) <=? 0
    then Panicked "non-positive interval for NewTicker"
    else Cut
  end.

(** ** More vocabulary for the properties *)

Definition is_status (e : Effect) : bool :=
  match e with EIsCharging _ => true | _ => false end.

(** A level the monitor knows. *)
Definition known_level (level : string) : Prop :=
  level = "normal" \/ level = "low" \/ level = "critical".

(** The calls the monitor is to make on the bus for the application [app]:
    a [Notify] that replaces nothing, never expires and carries the hints of
    urgency "critical", or a [CloseNotification] of an identifier other
    than 0. *)
Definition monitor_call (app : string) (c : MethodCall) : Prop :=
  (exists icon summary body,
      c = mkMethodCall "org.freedesktop.Notifications.Notify" 0
            [ AString app; AUint32 0; AString icon; AString summary;
              AString body; AStrings []; AHints (DBus.hints "critical"); AInt32 0 ])
  \/ (exists id,
         id <> 0
         /\ c = mkMethodCall "org.freedesktop.Notifications.CloseNotification" 0
                  [AUint32 id]).

(** The notifier [n'] is [n] after some more calls of the monitor: the same
    application name and answering transport, and the calls of [n] followed
    by calls the monitor is to make. *)
Definition grows (n n' : DBusNotifier) : Prop :=
  appName n' = appName n
  /\ respond (obj n') = respond (obj n)
  /\ exists new,
       calls (obj n') = calls (obj n) ++ new
       /\ Forall (monitor_call (appName n)) new.

(** A candidate directory with both of its files in place. *)
Definition usable (rt : Runtime) (fs : Files) (path : string) : Prop :=
  fs_Stat fs (Join rt path "capacity") = None
  /\ fs_Stat fs (Join rt path "status") = None.

(** A monitor for which the check of its battery has nothing to do: the
    reads fail, or the level is already the one the battery calls for. *)
Definition settled {B N : Type} {HB : Battery B} (m : Monitor B N) : Prop :=
  match IsCharging (battery m) with
  | (_, Some _) => True
  | (true, None) => currentLevel m = "normal"
  | (false, None) =>
    match Capacity (battery m) with
    | (_, Some _) => True
    | (k, None) => fst (newLevel (config m) k) = currentLevel m
    end
  end.

(** The urgency a send was made with; effects that are no send pass. *)
Definition sent_as (urgency : string) (e : Effect) : Prop :=
  match e with
  | ESend _ _ u _ _ => u = urgency
  | _ => True
  end.

(** ** Fixtures for the sysfs battery and the start-up *)

Module Fixture.

Definition newline : string := String (Ascii.ascii_of_nat 10) "".

Definition is_space (c : Ascii.ascii) : bool :=
  let n := Ascii.nat_of_ascii c in
  (Nat.eqb n 32 || (Nat.leb 9 n && Nat.leb n 13))%nat.

Fixpoint trim_left (s : string) : string :=
  match s with
  | String c rest => if is_space c then trim_left rest else s
  | EmptyString => s
  end.

Fixpoint digits (acc : Z) (s : string) : option Z :=
  match s with
  | EmptyString => Some acc
  | String c rest =>
    let n := Ascii.nat_of_ascii c in
    if (Nat.leb 48 n && Nat.leb n 57)%nat
    then digits (10 * acc + (Z.of_nat n - 48)) rest
    else None
  end.

Definition number (s : string) : Z * option error :=
  match s with
  | EmptyString => (0, Some (errorString "invalid syntax"))
  | _ =>
    match digits 0 s with
    | Some n => (n, None)
    | None => (0, Some (errorString "invalid syntax"))
    end
  end.

(** A library that trims ASCII white space and reads unsigned decimal
    numbers, which is what the two Go functions do on the files below. *)
Definition lib : Lib :=
  mkLib (fun s => String.rev (trim_left (String.rev (trim_left s)))) number.

Definition missing : option error := Some (errorString "no such file or directory").

(** A machine whose battery is BAT1; BAT0 has a capacity file and no status
    file. The battery is at [capacity] percent with status [status]. *)
Definition machine (capacity status : string) : Files :=
  mkFiles
    (fun path =>
       if String.eqb path "/sys/class/power_supply/BAT0/capacity" then None
       else if String.eqb path "/sys/class/power_supply/BAT1/capacity" then None
       else if String.eqb path "/sys/class/power_supply/BAT1/status" then None
       else missing)
    (fun path =>
       if String.eqb path "/sys/class/power_supply/BAT1/capacity"
       then (String.append capacity newline, None)
       else if String.eqb path "/sys/class/power_supply/BAT1/status"
       then (String.append status newline, None)
       else if String.eqb path "battery-monitor.yaml"
       then ("low_battery: {threshold: 20}", None)
       else ("", missing)).

(** The same machine with its capacity file gone. *)
Definition machine_without_capacity (status : string) : Files :=
  mkFiles (fs_Stat (machine "" status))
    (fun path =>
       if String.eqb path "/sys/class/power_supply/BAT1/capacity" then ("", missing)
       else fs_ReadFile (machine "" status) path).

(** A machine without any battery. *)
Definition desktop : Files :=
  mkFiles (fun _ => missing) (fs_ReadFile (machine "" "")).

Definition BAT1 : SysfsBattery :=
  mkSysfsBattery "/sys/class/power_supply/BAT1/capacity"
                 "/sys/class/power_supply/BAT1/status".

(** A decoder that finds the thresholds and texts of [Scenario.cfg] and
    neither [app_name] nor [poll_interval]. *)
Definition decode (data : string) (c : Config) : Config * option error :=
  (mkConfig (AppName c) (PollInterval c)
            (LowBattery Scenario.cfg) (CriticalBattery Scenario.cfg), None).

Definition session : Conn * option error := (fun _ _ => Scenario.bus_up, None).

Definition host (fs : Files) : Host :=
  mkHost ["battery-monitor"] fs decode session.

(** The same decoder for a file that also sets [poll_interval]. *)
Definition decode_interval (interval : Z) (data : string) (c : Config)
  : Config * option error :=
  (mkConfig (AppName c) interval
            (LowBattery Scenario.cfg) (CriticalBattery Scenario.cfg), None).

Definition host_interval (interval : Z) (fs : Files) : Host :=
  mkHost ["battery-monitor"] fs (decode_interval interval) session.

End Fixture.

(** * Properties *)

(** ** Equations of [check], one per path through it *)

Section CheckEquations.
Context {B N : Type} {HB : Battery B} {HN : Notifier N}.
Variable rt : Runtime.
Implicit Types m : Monitor B N.

Lemma playSound_eq m soundFile :
  playSound rt soundFile m = ((tt, m), played rt soundFile).
Proof.
  unfold playSound, played. destruct (String.eqb soundFile ""); reflexivity.
Qed.

Lemma played_no_notifier_call soundFile :
  notifier_calls (played rt soundFile) = [].
Proof.
  unfold played. destruct (String.eqb soundFile ""); reflexivity.
Qed.

Lemma close_log_no_notifier_call r : notifier_calls (close_log r) = [].
Proof. destruct r; reflexivity. Qed.

Ltac open_check :=
  unfold check, battery_IsCharging, battery_Capacity, notifier_Send,
    notifier_Close, logPrintf, emit, get, setNotificationID, setCurrentLevel,
    when, mbind, mret, Act_bind, Act_ret.

Lemma check_status_error m c e :
  IsCharging (battery m) = (c, Some e) ->
  check rt m = ((Some (wrapError "read charging status: %w" e), m),
                [EIsCharging (c, Some e)]).
Proof. intros Hc. open_check. rewrite Hc. reflexivity. Qed.

Lemma check_charging_normal m :
  IsCharging (battery m) = (true, None) ->
  currentLevel m = "normal" ->
  check rt m = ((None, m), [EIsCharging (true, None)]).
Proof. intros Hc Hl. open_check. rewrite Hc, Hl. reflexivity. Qed.

Lemma check_charging_alert m :
  IsCharging (battery m) = (true, None) ->
  currentLevel m <> "normal" ->
  check rt m =
    ((None, mkMonitor (config m) (battery m)
                      (snd (Close (notifier m) (notificationID m))) "normal" 0),
     [EIsCharging (true, None);
      ELog "Power connected, clearing notifications" [];
      EClose (notificationID m) (fst (Close (notifier m) (notificationID m)))]
     ++ close_log (fst (Close (notifier m) (notificationID m)))).
Proof.
  intros Hc Hl. open_check. rewrite Hc.
  apply String.eqb_neq in Hl. rewrite Hl. cbn.
  destruct (Close (notifier m) (notificationID m)) as [[e|] n]; reflexivity.
Qed.

Lemma check_capacity_error m k e :
  IsCharging (battery m) = (false, None) ->
  Capacity (battery m) = (k, Some e) ->
  check rt m = ((Some (wrapError "read capacity: %w" e), m),
                [EIsCharging (false, None); ECapacity (k, Some e)]).
Proof. intros Hc Hk. open_check. rewrite Hc. cbn. rewrite Hk. reflexivity. Qed.

Lemma check_same m k :
  IsCharging (battery m) = (false, None) ->
  Capacity (battery m) = (k, None) ->
  fst (newLevel (config m) k) = currentLevel m ->
  check rt m = ((None, m),
                [EIsCharging (false, None); ECapacity (k, None);
                 ELog "Battery: %d%% (discharging)" [LInt k]]).
Proof.
  intros Hc Hk Hl. open_check. rewrite Hc. cbn. rewrite Hk. cbn.
  destruct (newLevel (config m) k) as [nl lv]. cbn in Hl. subst nl.
  rewrite String.eqb_refl. cbn.
  destruct (String.eqb (currentLevel m) "normal"); reflexivity.
Qed.

Lemma check_enter_failed m k nl lv id e n1 :
  IsCharging (battery m) = (false, None) ->
  Capacity (battery m) = (k, None) ->
  newLevel (config m) k = (nl, lv) ->
  nl <> currentLevel m ->
  nl <> "normal" ->
  Send (notifier m) (Title lv) (Sprintf rt (Message lv) k) "critical" (Icon lv)
    = ((id, Some e), n1) ->
  check rt m =
    ((None, mkMonitor (config m) (battery m) n1 nl (notificationID m)),
     [EIsCharging (false, None); ECapacity (k, None);
      ELog "Battery: %d%% (discharging)" [LInt k];
      ELog "Battery level changed to: %s (%d%%)" [LStr nl; LInt k];
      ESend (Title lv) (Sprintf rt (Message lv) k) "critical" (Icon lv) (id, Some e);
      ELog "Failed to send notification: %v" [LErr e]]
     ++ played rt (Sound lv)).
Proof.
  intros Hc Hk Hn Hcur Hnorm Hs. open_check. rewrite Hc. cbn. rewrite Hk. cbn.
  rewrite Hn. apply String.eqb_neq in Hcur, Hnorm. rewrite Hcur, Hnorm. cbn.
  rewrite Hs. cbn. rewrite playSound_eq. cbn.
  rewrite !app_nil_r. reflexivity.
Qed.

Lemma check_enter_sent m k nl lv id n1 :
  IsCharging (battery m) = (false, None) ->
  Capacity (battery m) = (k, None) ->
  newLevel (config m) k = (nl, lv) ->
  nl <> currentLevel m ->
  nl <> "normal" ->
  Send (notifier m) (Title lv) (Sprintf rt (Message lv) k) "critical" (Icon lv)
    = ((id, None), n1) ->
  let old := notificationID m in
  let stale := negb (Z.eqb old 0) && negb (Z.eqb old id) in
  check rt m =
    ((None, mkMonitor (config m) (battery m)
                      (if stale then snd (Close n1 old) else n1) nl id),
     [EIsCharging (false, None); ECapacity (k, None);
      ELog "Battery: %d%% (discharging)" [LInt k];
      ELog "Battery level changed to: %s (%d%%)" [LStr nl; LInt k];
      ESend (Title lv) (Sprintf rt (Message lv) k) "critical" (Icon lv) (id, None)]
     ++ (if stale then [EClose old (fst (Close n1 old))] else [])
     ++ played rt (Sound lv)).
Proof.
  intros Hc Hk Hn Hcur Hnorm Hs old stale. subst old stale.
  open_check. rewrite Hc. cbn. rewrite Hk. cbn.
  rewrite Hn. apply String.eqb_neq in Hcur, Hnorm. rewrite Hcur, Hnorm. cbn.
  rewrite Hs. cbn.
  destruct (negb (Z.eqb (notificationID m) 0) && negb (Z.eqb (notificationID m) id)).
  - cbn. destruct (Close n1 (notificationID m)) as [r n2]. cbn.
    rewrite playSound_eq. cbn. rewrite !app_nil_r. reflexivity.
  - cbn. rewrite playSound_eq. cbn. rewrite !app_nil_r. reflexivity.
Qed.

Lemma check_recover m k :
  IsCharging (battery m) = (false, None) ->
  Capacity (battery m) = (k, None) ->
  fst (newLevel (config m) k) = "normal" ->
  currentLevel m <> "normal" ->
  check rt m =
    ((None, mkMonitor (config m) (battery m)
                      (snd (Close (notifier m) (notificationID m))) "normal" 0),
     [EIsCharging (false, None); ECapacity (k, None);
      ELog "Battery: %d%% (discharging)" [LInt k];
      EClose (notificationID m) (fst (Close (notifier m) (notificationID m)))]
     ++ close_log (fst (Close (notifier m) (notificationID m)))).
Proof.
  intros Hc Hk Hn Hcur. open_check. rewrite Hc. cbn. rewrite Hk. cbn.
  destruct (newLevel (config m) k) as [nl lv]. cbn in Hn. subst nl.
  assert (H1 : String.eqb "normal" (currentLevel m) = false).
  { apply String.eqb_neq. congruence. }
  apply String.eqb_neq in Hcur. rewrite H1, Hcur. cbn.
  destruct (Close (notifier m) (notificationID m)) as [[e|] n]; reflexivity.
Qed.

End CheckEquations.

(** ** The classifier *)

Lemma newLevel_cases c k :
  (k <= Threshold (CriticalBattery c)
   /\ newLevel c k = ("critical", CriticalBattery c))
  \/ (Threshold (CriticalBattery c) < k <= Threshold (LowBattery c)
      /\ newLevel c k = ("low", LowBattery c))
  \/ (Threshold (CriticalBattery c) < k /\ Threshold (LowBattery c) < k
      /\ newLevel c k = ("normal", zeroBatteryLevel)).
Proof.
  unfold newLevel.
  destruct (Z.leb_spec k (Threshold (CriticalBattery c))).
  - left. auto.
  - destruct (Z.leb_spec k (Threshold (LowBattery c))).
    + right. left. split; [lia | reflexivity].
    + right. right. auto.
Qed.

Lemma newLevel_classify c k :
  fst (newLevel c k) = classify k false (LowBattery c) (CriticalBattery c).
Proof.
  unfold newLevel, classify.
  destruct (k <=? Threshold (CriticalBattery c)); [reflexivity |].
  destruct (k <=? Threshold (LowBattery c)); reflexivity.
Qed.

Example severity_order :
  (severity "normal" < severity "low" < severity "critical")%nat.
Proof. cbn. lia. Qed.

(** C6. With charging false and the thresholds fixed, a lower capacity never
    classifies as a less severe level than a higher one: for [k2 <= k1] the
    level of [k2] is at least as severe as the level of [k1], in the order
    normal < low < critical. *)
Theorem newLevel_monotone (c : Config) (k1 k2 : Z) :
  k2 <= k1 ->
  (severity (fst (newLevel c k1)) <= severity (fst (newLevel c k2)))%nat.
Proof.
  intros Hle.
  destruct (newLevel_cases c k1) as [[H1 E1] | [[H1 E1] | (H1 & H1' & E1)]];
    destruct (newLevel_cases c k2) as [[H2 E2] | [[H2 E2] | (H2 & H2' & E2)]];
    rewrite E1, E2; cbn; lia.
Qed.

Lemma newLevel_monotone_witness :
  (severity (fst (newLevel Scenario.cfg 18)) <= severity (fst (newLevel Scenario.cfg 9)))%nat.
Proof. apply (newLevel_monotone Scenario.cfg 18 9). lia. Defined.

(** ** The D-Bus notifier *)

(** C7. [Close] of the identifier 0 returns the nil error and makes no call
    on the transport, whatever the state of the notifier. *)
Theorem Close_zero_is_noop (n : DBusNotifier) :
  DBus.Close n 0 = (None, n)
  /\ calls (obj (snd (DBus.Close n 0))) = calls (obj n).
Proof. split; reflexivity. Qed.

Lemma urgencyLevel_other (urgency : string) :
  urgency <> "critical" -> urgency <> "normal" -> DBus.urgencyLevel urgency = 0.
Proof.
  intros Hc Hn. unfold DBus.urgencyLevel.
  apply String.eqb_neq in Hc, Hn. rewrite Hc, Hn. reflexivity.
Qed.

(** C8. [Send] maps the urgency to the wire encoding totally: "critical"
    gives 2, "normal" gives 1 and every other string 0. Whatever the urgency,
    [Send] makes one call on the transport, the [Notify] whose arguments are
    the application name, replaces_id 0, the icon, the summary, the body, no
    actions, the hints and timeout 0, and the hints are the map that holds
    that byte under "urgency", true under "resident", false under
    "transient" and nothing else. The result of [Send] is the transport's
    answer alone: it fails only when the call or the reading of its reply
    fails. *)
Theorem Send_urgency_total (n : DBusNotifier) (summary body urgency icon : string) :
  urgency <> "critical" -> urgency <> "normal" ->
  DBus.urgencyLevel "critical" = 2
  /\ DBus.urgencyLevel "normal" = 1
  /\ DBus.urgencyLevel urgency = 0
  /\ forall u : string,
       exists h : gmap string Variant,
         let c := mkMethodCall "org.freedesktop.Notifications.Notify" 0
                    [ AString (appName n); AUint32 0; AString icon;
                      AString summary; AString body; AStrings [];
                      AHints h; AInt32 0 ] in
         let reply := respond (obj n) (calls (obj n)) c in
         h !! "urgency" = Some (VByte (DBus.urgencyLevel u))
         /\ h !! "resident" = Some (VBool true)
         /\ h !! "transient" = Some (VBool false)
         /\ (forall key : string,
                key <> "urgency" -> key <> "resident" -> key <> "transient" ->
                h !! key = None)
         /\ h = DBus.hints u
         /\ DBus.notify n summary body u icon = args c
         /\ 0 <= DBus.urgencyLevel u <= 2
         /\ calls (obj (snd (DBus.Send n summary body u icon))) = calls (obj n) ++ [c]
         /\ fst (DBus.Send n summary body u icon)
            = match Err reply with
              | Some e => (0, Some e)
              | None => Store reply
              end.
Proof.
  intros Hc Hn. split; [reflexivity |]. split; [reflexivity |].
  split; [apply urgencyLevel_other; assumption |].
  intros u. exists (DBus.hints u). cbn zeta.
  split; [unfold DBus.hints; apply lookup_insert_eq |].
  split; [unfold DBus.hints; rewrite lookup_insert_ne by discriminate;
          apply lookup_insert_eq |].
  split; [unfold DBus.hints; rewrite !lookup_insert_ne by discriminate;
          apply lookup_insert_eq |].
  split.
  { intros key H1 H2 H3. unfold DBus.hints.
    rewrite !lookup_insert_ne by congruence. apply lookup_empty. }
  split; [reflexivity |]. split; [reflexivity |].
  split.
  { unfold DBus.urgencyLevel.
    destruct (String.eqb u "critical"); [lia |].
    destruct (String.eqb u "normal"); lia. }
  unfold DBus.Send, obj_Call, DBus.notify.
  destruct (Err (respond (obj n) (calls (obj n)) _)); split; reflexivity.
Qed.

Lemma Send_urgency_total_witness :
  DBus.urgencyLevel "low" = 0
  /\ fst (DBus.Send (mkDBusNotifier Scenario.bus_up "Battery Monitor")
                    "Battery low" "Battery at 18%" "low" "battery-low")
     = (1, None)
  /\ exists h,
       calls (obj (snd (DBus.Send (mkDBusNotifier Scenario.bus_up "Battery Monitor")
                                  "Battery low" "Battery at 18%" "normal" "battery-low")))
         = [mkMethodCall "org.freedesktop.Notifications.Notify" 0
              [ AString "Battery Monitor"; AUint32 0; AString "battery-low";
                AString "Battery low"; AString "Battery at 18%"; AStrings [];
                AHints h; AInt32 0 ]]
       /\ h !! "urgency" = Some (VByte 1).
Proof.
  pose proof (Send_urgency_total (mkDBusNotifier Scenario.bus_up "Battery Monitor")
                "Battery low" "Battery at 18%" "low" "battery-low") as H.
  destruct H as (_ & H1 & H0 & Hu); [discriminate | discriminate |].
  split; [exact H0 |]. split.
  - destruct (Hu "low") as (h & _ & _ & _ & _ & _ & _ & _ & _ & Hr).
    rewrite Hr. reflexivity.
  - destruct (Hu "normal") as (h & Hh & _ & _ & _ & _ & _ & _ & Hcalls & _).
    exists h. split; [exact Hcalls |]. rewrite Hh, H1. reflexivity.
Defined.

(** ** loadConfig *)

(** C9, as the code has it. A configuration that loads has a poll interval
    other than 0 and a nonempty application name: a decoded 0 becomes 5 and a
    decoded empty name becomes "Battery Monitor", every other decoded value
    is returned as it is, a negative poll interval included, so the poll
    interval is at least 1 exactly when the decoded one is not negative. *)
Theorem loadConfig_defaults
    (ReadFile : string -> string * option error)
    (Unmarshal : string -> Config -> Config * option error)
    (path : string) (c : Config) :
  Loader.loadConfig ReadFile Unmarshal path = (Some c, None) ->
  PollInterval c <> 0
  /\ AppName c <> ""
  /\ exists data parsed,
       ReadFile path = (data, None)
       /\ Unmarshal data zeroConfig = (parsed, None)
       /\ PollInterval c = (if Z.eqb (PollInterval parsed) 0 then 5 else PollInterval parsed)
       /\ AppName c = (if String.eqb (AppName parsed) "" then "Battery Monitor"
                       else AppName parsed)
       /\ LowBattery c = LowBattery parsed
       /\ CriticalBattery c = CriticalBattery parsed
       /\ (1 <= PollInterval c <-> 0 <= PollInterval parsed).
Proof.
  unfold Loader.loadConfig. intros H.
  destruct (ReadFile path) as [data [e|]] eqn:Hr; [discriminate |].
  destruct (Unmarshal data zeroConfig) as [parsed [e|]] eqn:Hu; [discriminate |].
  injection H as <-.
  destruct parsed as [a p l r]. cbn.
  destruct (Z.eqb_spec p 0) as [Hp|Hp]; cbn;
    destruct (String.eqb_spec a "") as [Ha|Ha]; cbn;
    (split; [lia || assumption |]);
    (split; [discriminate || assumption |]);
    exists data, (mkConfig a p l r); cbn;
    try rewrite (proj2 (Z.eqb_neq p 0) Hp);
    try rewrite (proj2 (String.eqb_neq a "") Ha);
    subst; repeat split; (reflexivity || assumption || lia).
Qed.

Lemma loadConfig_defaults_witness :
  exists c,
    Loader.loadConfig Scenario.ReadFile Scenario.Unmarshal_empty "battery-monitor.yaml"
      = (Some c, None)
    /\ PollInterval c = 5 /\ AppName c = "Battery Monitor".
Proof.
  eexists. split; [reflexivity |].
  destruct (loadConfig_defaults Scenario.ReadFile Scenario.Unmarshal_empty
              "battery-monitor.yaml" _ eq_refl)
    as (_ & _ & data & parsed & _ & Hu & Hp & Ha & _).
  injection Hu as <-. split; [exact Hp | exact Ha].
Defined.

(** C9 as stated fails: a file that sets [poll_interval: -3] loads, and the
    configuration returned has poll interval -3, which is below 1. *)
Lemma loadConfig_negative_poll_interval :
  exists c,
    Loader.loadConfig Scenario.ReadFile Scenario.Unmarshal "battery-monitor.yaml"
      = (Some c, None)
    /\ PollInterval c = -3
    /\ ~ 1 <= PollInterval c.
Proof.
  eexists. split; [reflexivity |]. split; [reflexivity |]. cbn. lia.
Qed.

(** ** The state machine *)

Section StateMachine.
Context {B N : Type} {HB : Battery B} {HN : Notifier N}.
Variable rt : Runtime.
Implicit Types m : Monitor B N.

(** Every path of [check], by its equation. *)
Ltac check_paths m :=
  let c := fresh "c" in
  let e := fresh "e" in
  let k := fresh "k" in
  let nl := fresh "nl" in
  let lv := fresh "lv" in
  let id := fresh "id" in
  let n1 := fresh "n1" in
  let Hc := fresh "Hc" in
  let Hk := fresh "Hk" in
  let Hn := fresh "Hn" in
  let Hs := fresh "Hs" in
  let Hcur := fresh "Hcur" in
  let Hnorm := fresh "Hnorm" in
  destruct (IsCharging (battery m)) as [c [e|]] eqn:Hc;
  [ rewrite (check_status_error rt m c e Hc)
  | destruct c;
    [ destruct (String.eqb_spec (currentLevel m) "normal") as [Hcur|Hcur];
      [ rewrite (check_charging_normal rt m Hc Hcur)
      | rewrite (check_charging_alert rt m Hc Hcur) ]
    | destruct (Capacity (battery m)) as [k [e|]] eqn:Hk;
      [ rewrite (check_capacity_error rt m k e Hc Hk)
      | destruct (newLevel (config m) k) as [nl lv] eqn:Hn;
        destruct (String.eqb_spec nl (currentLevel m)) as [Hcur|Hcur];
        [ rewrite (check_same rt m k Hc Hk
                     (eq_trans (f_equal fst Hn) Hcur))
        | destruct (String.eqb_spec nl "normal") as [Hnorm|Hnorm];
          [ rewrite (check_recover rt m k Hc Hk
                       (eq_trans (f_equal fst Hn) Hnorm)
                       (fun H => Hcur (eq_trans Hnorm (eq_sym H))))
          | destruct (Send (notifier m) (Title lv) (Sprintf rt (Message lv) k)
                           "critical" (Icon lv)) as [[id [e|]] n1] eqn:Hs;
            [ rewrite (check_enter_failed rt m k nl lv id e n1 Hc Hk Hn Hcur Hnorm Hs)
            | rewrite (check_enter_sent rt m k nl lv id n1 Hc Hk Hn Hcur Hnorm Hs) ]
          ] ] ] ] ].

(** After a check that read the battery, the level is the one the capacity
    falls in, whatever the notifier answered. *)
Lemma check_level m k :
  IsCharging (battery m) = (false, None) ->
  Capacity (battery m) = (k, None) ->
  currentLevel (state_of (check rt m)) = fst (newLevel (config m) k).
Proof.
  intros Hc0 Hk0. check_paths m; try congruence;
    rewrite Hk0 in *; match goal with H : (_, _) = (_, _) |- _ => injection H as <- end;
    rewrite ?Hn; cbn; congruence.
Qed.

Lemma check_level_charging m :
  IsCharging (battery m) = (true, None) ->
  currentLevel (state_of (check rt m)) = "normal".
Proof.
  intros Hc0. check_paths m; try congruence; cbn; congruence.
Qed.

(** C10. A read error of the battery aborts the check: when reading the
    charging status fails, or the battery is not charging and reading the
    capacity fails, [check] returns that error (wrapped), the monitor is as
    before, so level and identifier are unchanged, and neither [Send] nor
    [Close] nor the sound player was called. *)
Theorem check_read_error_aborts m (e : error) :
  (exists c, IsCharging (battery m) = (c, Some e))
  \/ (IsCharging (battery m) = (false, None)
      /\ exists k, Capacity (battery m) = (k, Some e)) ->
  (exists format, value_of (check rt m) = Some (wrapError format e))
  /\ state_of (check rt m) = m
  /\ currentLevel (state_of (check rt m)) = currentLevel m
  /\ notificationID (state_of (check rt m)) = notificationID m
  /\ notifier_calls (effects_of (check rt m)) = []
  /\ List.filter is_play (effects_of (check rt m)) = [].
Proof.
  intros [[c Hc] | [Hc [k Hk]]].
  - rewrite (check_status_error rt m c e Hc). cbn. eauto 10.
  - rewrite (check_capacity_error rt m k e Hc Hk). cbn. eauto 10.
Qed.

(** C3. The level computed at a tick is the reference classifier: the [if]
    chain of [check] equals [classify] with charging false, and after a check
    that read the battery the monitor's level is [classify] of the capacity
    and the charging flag, normal whenever charging. The critical test comes
    first: a capacity that passes it is critical, and with inverted thresholds
    (critical above low) so is every capacity that passes both tests. *)
Theorem check_classifies m (c : bool) (k : Z) :
  IsCharging (battery m) = (c, None) ->
  (c = false -> Capacity (battery m) = (k, None)) ->
  fst (newLevel (config m) k)
    = classify k false (LowBattery (config m)) (CriticalBattery (config m))
  /\ currentLevel (state_of (check rt m))
    = classify k c (LowBattery (config m)) (CriticalBattery (config m))
  /\ classify k true (LowBattery (config m)) (CriticalBattery (config m)) = "normal"
  /\ (k <= Threshold (CriticalBattery (config m)) ->
      fst (newLevel (config m) k) = "critical")
  /\ (Threshold (LowBattery (config m)) < Threshold (CriticalBattery (config m)) ->
      k <= Threshold (LowBattery (config m)) ->
      fst (newLevel (config m) k) = "critical").
Proof.
  intros Hc Hk. split; [apply newLevel_classify |]. split; [| split; [| split]].
  - destruct c.
    + rewrite (check_level_charging m Hc). reflexivity.
    + rewrite (check_level m k Hc (Hk eq_refl)). apply newLevel_classify.
  - reflexivity.
  - intros Hle. unfold newLevel.
    destruct (Z.leb_spec k (Threshold (CriticalBattery (config m)))); [reflexivity | lia].
  - intros Hinv Hle. unfold newLevel.
    destruct (Z.leb_spec k (Threshold (CriticalBattery (config m)))); [reflexivity | lia].
Qed.

(** *** Effects by kind *)

Lemma notifier_calls_app (t u : list Effect) :
  notifier_calls (t ++ u) = notifier_calls t ++ notifier_calls u.
Proof. apply List.filter_app. Qed.

Lemma sends_of_calls (t : list Effect) : sends t = sends (notifier_calls t).
Proof.
  unfold sends, notifier_calls, is_notifier_call.
  induction t as [|e t IH]; [reflexivity |].
  destruct e; cbn; rewrite <- ?IH; reflexivity.
Qed.

Lemma closes_of_calls (t : list Effect) : closes t = closes (notifier_calls t).
Proof.
  unfold closes, notifier_calls, is_notifier_call.
  induction t as [|e t IH]; [reflexivity |].
  destruct e; cbn; rewrite <- ?IH; reflexivity.
Qed.

Lemma played_only_plays soundFile :
  List.filter is_play (played rt soundFile) = played rt soundFile
  /\ List.filter is_capacity (played rt soundFile) = []
  /\ forallb send_ok (played rt soundFile) = true.
Proof. unfold played. destruct (String.eqb soundFile ""); cbn; auto. Qed.

Lemma close_log_only_logs r :
  List.filter is_play (close_log r) = []
  /\ List.filter is_capacity (close_log r) = []
  /\ forallb send_ok (close_log r) = true.
Proof. destruct r; cbn; auto. Qed.

(** *** The poll loop, turn by turn *)

Lemma tick_eq (b : B) m :
  let r := check rt (mkMonitor (config m) b (notifier m) (currentLevel m)
                               (notificationID m)) in
  tick rt b m =
    ((tt, state_of r),
     effects_of r ++ match value_of r with
                     | Some e => [ELog "Check failed: %v" [LErr e]]
                     | None => []
                     end).
Proof.
  cbn zeta. unfold tick, meet, logPrintf, emit, mbind, mret, Act_bind, Act_ret.
  destruct (check rt _) as [[[e|] m2] t]; cbn; rewrite ?app_nil_r; reflexivity.
Qed.

Lemma ticks_cons (b : B) (bs : list B) m :
  ticks rt (b :: bs) m =
    ((tt, state_of (ticks rt bs (state_of (tick rt b m)))),
     effects_of (tick rt b m) ++ effects_of (ticks rt bs (state_of (tick rt b m)))).
Proof.
  cbn [ticks]. unfold mbind, Act_bind.
  destruct (tick rt b m) as [[[] m1] t1]. cbn.
  destruct (ticks rt bs m1) as [[[] m2] t2]. reflexivity.
Qed.

(** A turn at which the capacity falls in the monitor's level: nothing is
    sent or closed, and only the battery of the monitor is the new one. *)
Lemma tick_same_level (b : B) m k :
  IsCharging b = (false, None) ->
  Capacity b = (k, None) ->
  fst (newLevel (config m) k) = currentLevel m ->
  state_of (tick rt b m)
    = mkMonitor (config m) b (notifier m) (currentLevel m) (notificationID m)
  /\ notifier_calls (effects_of (tick rt b m)) = [].
Proof.
  intros Hc Hk Hl. rewrite tick_eq. cbn zeta.
  rewrite (check_same rt (mkMonitor (config m) b (notifier m) (currentLevel m)
                                    (notificationID m)) k Hc Hk Hl).
  split; reflexivity.
Qed.

(** *** Charging *)

(** A check that finds the battery charging, from any monitor in which level
    normal goes with identifier 0: it ends at level normal with identifier
    0; it sends nothing and never reads the capacity; when the level was not
    normal it closes the active notification, once; when the level was
    normal it calls the notifier not at all and leaves the monitor as it
    was. *)
Lemma check_charging m :
  IsCharging (battery m) = (true, None) ->
  normal_is_clear m ->
  value_of (check rt m) = None
  /\ currentLevel (state_of (check rt m)) = "normal"
  /\ notificationID (state_of (check rt m)) = 0
  /\ sends (effects_of (check rt m)) = []
  /\ List.filter is_capacity (effects_of (check rt m)) = []
  /\ closes (effects_of (check rt m))
     = (if String.eqb (currentLevel m) "normal" then []
        else [EClose (notificationID m)
                     (fst (Close (notifier m) (notificationID m)))])
  /\ (currentLevel m = "normal" ->
      state_of (check rt m) = m
      /\ notifier_calls (effects_of (check rt m)) = []).
Proof.
  intros Hc Hclear.
  destruct (String.eqb_spec (currentLevel m) "normal") as [Hl|Hl].
  - rewrite (check_charging_normal rt m Hc Hl). cbn.
    repeat split; auto.
  - rewrite (check_charging_alert rt m Hc Hl). cbn.
    destruct (fst (Close (notifier m) (notificationID m))); cbn;
      repeat split; auto; contradiction.
Qed.

(** *** A send that fails *)

(** C1, as the code has it. At a tick that enters an alert level (the new
    level differs from the current one and is not normal) and whose send
    fails, the identifier keeps its value, but the level is advanced to the
    new level and the sound of the level is started; nothing is closed. So a
    next tick with the same classified level finds nothing to do: it calls
    the notifier not at all, and the send is not tried again. *)
Theorem check_send_failure m (k : Z) (nl : string) (lv : BatteryLevel)
    (id : Z) (e : error) (n1 : N) :
  IsCharging (battery m) = (false, None) ->
  Capacity (battery m) = (k, None) ->
  newLevel (config m) k = (nl, lv) ->
  nl <> currentLevel m ->
  nl <> "normal" ->
  Send (notifier m) (Title lv) (Sprintf rt (Message lv) k) "critical" (Icon lv)
    = ((id, Some e), n1) ->
  value_of (check rt m) = None
  /\ notificationID (state_of (check rt m)) = notificationID m
  /\ currentLevel (state_of (check rt m)) = nl
  /\ notifier_calls (effects_of (check rt m))
     = [ESend (Title lv) (Sprintf rt (Message lv) k) "critical" (Icon lv) (id, Some e)]
  /\ List.filter is_play (effects_of (check rt m)) = played rt (Sound lv)
  /\ forall (b' : B) (k' : Z),
       IsCharging b' = (false, None) ->
       Capacity b' = (k', None) ->
       fst (newLevel (config m) k') = nl ->
       state_of (tick rt b' (state_of (check rt m)))
         = mkMonitor (config m) b' n1 nl (notificationID m)
       /\ notifier_calls (effects_of (tick rt b' (state_of (check rt m)))) = [].
Proof.
  intros Hc Hk Hn Hcur Hnorm Hs.
  rewrite (check_enter_failed rt m k nl lv id e n1 Hc Hk Hn Hcur Hnorm Hs).
  cbn. rewrite played_no_notifier_call.
  destruct (played_only_plays (Sound lv)) as (Hp & _ & _). rewrite Hp.
  repeat split; auto.
  - apply (tick_same_level b' (mkMonitor (config m) (battery m) n1 nl (notificationID m)) k');
      assumption.
  - apply (tick_same_level b' (mkMonitor (config m) (battery m) n1 nl (notificationID m)) k');
      assumption.
Qed.

(** *** The invariant *)

Lemma check_keeps_normal_clear m :
  normal_is_clear m -> normal_is_clear (state_of (check rt m)).
Proof.
  unfold normal_is_clear. intros Hclear.
  check_paths m; cbn; auto; intros; congruence.
Qed.

Lemma tick_keeps_normal_clear (b : B) m :
  normal_is_clear m -> normal_is_clear (state_of (tick rt b m)).
Proof.
  intros Hclear. rewrite tick_eq. cbn zeta.
  change (state_of (_, state_of ?r, _)) with (state_of r).
  apply check_keeps_normal_clear. exact Hclear.
Qed.

(** At every state the daemon reaches from the monitor of [main], level
    normal goes with identifier 0. *)
Lemma run_normal_is_clear (c : Config) (b : B) (n : N) (bs : list B) :
  normal_is_clear (state_of (run rt bs (newMonitor c b n))).
Proof.
  assert (Hticks : forall bs m, normal_is_clear m ->
                                normal_is_clear (state_of (ticks rt bs m))).
  { clear bs. induction bs as [|b1 bs IH]; intros m Hm; [exact Hm |].
    rewrite ticks_cons. apply IH, tick_keeps_normal_clear, Hm. }
  assert (H0 : normal_is_clear (newMonitor c b n)) by (intros _; reflexivity).
  unfold run, get, logPrintf, emit, mbind, mret, Act_bind, Act_ret. cbn.
  destruct bs as [|b1 later]; [exact H0 |].
  pose proof (tick_keeps_normal_clear b1 _ H0) as H1.
  destruct (tick rt b1 (newMonitor c b n)) as [[[] m1] t1]. cbn in H1. cbn.
  destruct (tickerInterval (PollInterval (config m1)) <=? 0); [exact H1 |].
  pose proof (Hticks later m1 H1) as H2.
  destruct (ticks rt later m1) as [[[] m2] t2]. exact H2.
Qed.

Lemma ticks_keep_normal_clear (bs : list B) m :
  normal_is_clear m -> normal_is_clear (state_of (ticks rt bs m)).
Proof.
  revert m. induction bs as [|b1 bs IH]; intros m Hm; [exact Hm |].
  rewrite ticks_cons. apply IH, tick_keeps_normal_clear, Hm.
Qed.

(** C4. Whatever state the monitor is in when a tick begins (the monitor of
    [main] after any number of turns of the poll loop, on any batteries and
    with any notifier), if the battery reports charging then the tick ends
    with level normal and identifier 0; it sends nothing and never reads the
    capacity; when the level was not normal it closes the active
    notification, once; and when the level was already normal it calls the
    notifier not at all and leaves the monitor as it was. *)
Theorem check_charging_reachable (c : Config) (b : B) (n : N) (bs : list B) (b' : B) :
  IsCharging b' = (true, None) ->
  let prior := state_of (ticks rt bs (newMonitor c b n)) in
  let m := mkMonitor (config prior) b' (notifier prior) (currentLevel prior)
                     (notificationID prior) in
  value_of (check rt m) = None
  /\ currentLevel (state_of (check rt m)) = "normal"
  /\ notificationID (state_of (check rt m)) = 0
  /\ sends (effects_of (check rt m)) = []
  /\ List.filter is_capacity (effects_of (check rt m)) = []
  /\ closes (effects_of (check rt m))
     = (if String.eqb (currentLevel prior) "normal" then []
        else [EClose (notificationID prior)
                     (fst (Close (notifier prior) (notificationID prior)))])
  /\ (currentLevel prior = "normal" ->
      state_of (check rt m) = m
      /\ notifier_calls (effects_of (check rt m)) = []).
Proof.
  intros Hc prior m.
  assert (Hclear : normal_is_clear prior).
  { apply ticks_keep_normal_clear. intros _. reflexivity. }
  apply (check_charging m); [exact Hc | exact Hclear].
Qed.

(** C2, as the code has it. The invariant (identifier nonzero exactly when
    the level is not normal) holds of the monitor [main] builds. Every check
    keeps its half "level normal implies identifier 0"; the whole invariant
    is kept by every check whose send, if it makes one, succeeds and returns
    an identifier other than 0. *)
Theorem check_invariant (c : Config) (b : B) (n : N) m :
  invariant (newMonitor c b n)
  /\ (normal_is_clear m -> normal_is_clear (state_of (check rt m)))
  /\ (invariant m ->
      forallb send_ok (effects_of (check rt m)) = true ->
      invariant (state_of (check rt m))).
Proof.
  split; [| split].
  - unfold invariant. cbn. split; congruence.
  - apply check_keeps_normal_clear.
  - unfold invariant. intros Hinv.
    check_paths m; cbn; auto; intros Hok.
    + split; congruence.
    + split; congruence.
    + discriminate Hok.
    + rewrite forallb_app in Hok. apply andb_prop in Hok as [Hid _].
      apply negb_true_iff, Z.eqb_neq in Hid.
      split; intros; assumption.
Qed.

(** *** Edge triggering *)

Lemma newLevel_low (c : Config) (k : Z) :
  fst (newLevel c k) = "low" -> newLevel c k = ("low", LowBattery c).
Proof.
  destruct (newLevel_cases c k) as [[_ E] | [[_ E] | (_ & _ & E)]];
    rewrite E; cbn; congruence.
Qed.

Lemma newLevel_critical (c : Config) (k : Z) :
  fst (newLevel c k) = "critical" -> newLevel c k = ("critical", CriticalBattery c).
Proof.
  destruct (newLevel_cases c k) as [[_ E] | [[_ E] | (_ & _ & E)]];
    rewrite E; cbn; congruence.
Qed.

(** A turn that enters an alert level, by the answer of [Send]: one send,
    then the close of the notification on display when there is one and the
    send returned another identifier. *)
Lemma tick_enter (b : B) m (k : Z) (nl : string) (lv : BatteryLevel) :
  IsCharging b = (false, None) ->
  Capacity b = (k, None) ->
  newLevel (config m) k = (nl, lv) ->
  nl <> currentLevel m ->
  nl <> "normal" ->
  let s := Send (notifier m) (Title lv) (Sprintf rt (Message lv) k) "critical" (Icon lv) in
  let old := notificationID m in
  let stale :=
    match fst s with
    | (id, None) => negb (Z.eqb old 0) && negb (Z.eqb old id)
    | (_, Some _) => false
    end in
  state_of (tick rt b m)
    = mkMonitor (config m) b
        (if stale then snd (Close (snd s) old) else snd s) nl
        (match fst s with (id, None) => id | (_, Some _) => old end)
  /\ notifier_calls (effects_of (tick rt b m))
     = ESend (Title lv) (Sprintf rt (Message lv) k) "critical" (Icon lv) (fst s)
       :: (if stale then [EClose old (fst (Close (snd s) old))] else []).
Proof.
  intros Hc Hk Hn Hcur Hnorm. cbn zeta. rewrite tick_eq. cbn zeta.
  set (m' := mkMonitor (config m) b (notifier m) (currentLevel m) (notificationID m)).
  destruct (Send (notifier m) (Title lv) (Sprintf rt (Message lv) k) "critical" (Icon lv))
    as [[id [e|]] n1] eqn:Hs.
  - rewrite (check_enter_failed rt m' k nl lv id e n1 Hc Hk Hn Hcur Hnorm Hs).
    cbn. rewrite app_nil_r, played_no_notifier_call. split; reflexivity.
  - rewrite (check_enter_sent rt m' k nl lv id n1 Hc Hk Hn Hcur Hnorm Hs).
    cbn. rewrite app_nil_r.
    destruct (negb (Z.eqb (notificationID m) 0) && negb (Z.eqb (notificationID m) id));
      cbn; rewrite played_no_notifier_call; split; reflexivity.
Qed.

(** C5. Transitions are edge-triggered. A check whose classified level is
    the monitor's level sends nothing, closes nothing and leaves the monitor
    as it was. Over four turns classified normal, low, low, critical from the
    monitor of [main], the notifier is called as follows, in this order: the
    send of the low alert, the send of the critical alert, and then the
    close of the low notification, once, exactly when both sends succeeded
    and the low identifier is not 0 and differs from the one the critical
    send returned. So there are two sends and at most one close. *)
Theorem edge_triggered :
  (forall m (c : bool) (k : Z),
      IsCharging (battery m) = (c, None) ->
      (c = false -> Capacity (battery m) = (k, None)) ->
      classify k c (LowBattery (config m)) (CriticalBattery (config m))
        = currentLevel m ->
      state_of (check rt m) = m
      /\ notifier_calls (effects_of (check rt m)) = [])
  /\ (forall (cfg : Config) (n : N) (b0 b1 b2 b3 b4 : B) (k1 k2 k3 k4 : Z),
        Forall (fun b => IsCharging b = (false, None)) [b1; b2; b3; b4] ->
        List.map Capacity [b1; b2; b3; b4]
          = [(k1, None); (k2, None); (k3, None); (k4, None)] ->
        List.map (fun k => fst (newLevel cfg k)) [k1; k2; k3; k4]
          = ["normal"; "low"; "low"; "critical"] ->
        let low := LowBattery cfg in
        let crit := CriticalBattery cfg in
        let s1 := Send n (Title low) (Sprintf rt (Message low) k2)
                       "critical" (Icon low) in
        let s2 := Send (snd s1) (Title crit) (Sprintf rt (Message crit) k4)
                       "critical" (Icon crit) in
        let stale :=
          match fst s1, fst s2 with
          | (id1, None), (id2, None) => negb (Z.eqb id1 0) && negb (Z.eqb id1 id2)
          | _, _ => false
          end in
        let r := ticks rt [b1; b2; b3; b4] (newMonitor cfg b0 n) in
        notifier_calls (effects_of r)
          = [ESend (Title low) (Sprintf rt (Message low) k2) "critical" (Icon low) (fst s1);
             ESend (Title crit) (Sprintf rt (Message crit) k4) "critical" (Icon crit) (fst s2)]
            ++ (if stale
                then [EClose (fst (fst s1)) (fst (Close (snd s2) (fst (fst s1))))]
                else [])
        /\ List.length (sends (effects_of r)) = 2%nat
        /\ (List.length (closes (effects_of r)) <= 1)%nat
        /\ currentLevel (state_of r) = "critical").
Proof.
  split.
  - intros m c k Hc Hk Hl. destruct c.
    + cbn in Hl. rewrite (check_charging_normal rt m Hc (eq_sym Hl)).
      split; reflexivity.
    + rewrite <- newLevel_classify in Hl.
      rewrite (check_same rt m k Hc (Hk eq_refl) Hl). split; reflexivity.
  - intros cfg n b0 b1 b2 b3 b4 k1 k2 k3 k4 Hch Hcap Hlev.
    repeat match goal with
           | H : Forall _ (_ :: _) |- _ => apply Forall_cons_iff in H as [? H]
           end.
    cbn in Hcap, Hlev.
    injection Hcap as Hk1 Hk2 Hk3 Hk4. injection Hlev as Hl1 Hl2 Hl3 Hl4.
    cbn zeta.
    destruct (Send n (Title (LowBattery cfg))
                   (Sprintf rt (Message (LowBattery cfg)) k2) "critical"
                   (Icon (LowBattery cfg))) as [[id1 o1] n1] eqn:Hs1.
    cbn [fst snd].
    destruct (Send n1 (Title (CriticalBattery cfg))
                   (Sprintf rt (Message (CriticalBattery cfg)) k4) "critical"
                   (Icon (CriticalBattery cfg))) as [[id2 o2] n2] eqn:Hs2.
    cbn [fst snd].
    set (r := ticks rt [b1; b2; b3; b4] (newMonitor cfg b0 n)).
    set (stale := match o1 with
                  | Some _ => false
                  | None => match o2 with
                            | Some _ => false
                            | None => negb (Z.eqb id1 0) && negb (Z.eqb id1 id2)
                            end
                  end).
    assert (Hcalls :
      notifier_calls (effects_of r)
      = [ESend (Title (LowBattery cfg)) (Sprintf rt (Message (LowBattery cfg)) k2)
               "critical" (Icon (LowBattery cfg)) (id1, o1);
         ESend (Title (CriticalBattery cfg))
               (Sprintf rt (Message (CriticalBattery cfg)) k4)
               "critical" (Icon (CriticalBattery cfg)) (id2, o2)]
        ++ (if stale then [EClose id1 (fst (Close n2 id1))] else [])
      /\ currentLevel (state_of r) = "critical").
    { subst r. rewrite !ticks_cons. cbn [ticks]. cbn [effects_of state_of fst snd].
      rewrite !notifier_calls_app.
      destruct (tick_same_level b1 (newMonitor cfg b0 n) k1 H Hk1 Hl1) as [S1 C1].
      cbn in S1. rewrite S1, C1. clear S1 C1.
      destruct (tick_enter b2 (mkMonitor cfg b1 n "normal" 0) k2 "low" (LowBattery cfg)
                  H0 Hk2 (newLevel_low _ _ Hl2)) as [S2 C2];
        [discriminate | discriminate |].
      cbn [config notifier currentLevel notificationID] in S2, C2.
      rewrite Hs1 in S2, C2. cbn in S2, C2.
      assert (Hst : (match o1 with Some _ | _ => false end) = false)
        by (destruct o1; reflexivity).
      rewrite Hst in S2, C2. rewrite S2, C2. clear S2 C2 Hst.
      set (id := match o1 with Some _ => 0 | None => id1 end).
      destruct (tick_same_level b3 (mkMonitor cfg b2 n1 "low" id) k3 H1 Hk3 Hl3)
        as [S3 C3].
      cbn in S3. rewrite S3, C3. clear S3 C3.
      destruct (tick_enter b4 (mkMonitor cfg b3 n1 "low" id) k4 "critical"
                  (CriticalBattery cfg) H2 Hk4 (newLevel_critical _ _ Hl4)) as [S4 C4];
        [discriminate | discriminate |].
      cbn [config notifier currentLevel notificationID] in S4, C4.
      rewrite Hs2 in S4, C4. cbn [fst snd] in S4, C4.
      rewrite S4, C4. clear S4 C4. cbn.
      split; [| reflexivity].
      subst id stale. destruct o1, o2; cbn; rewrite ?app_nil_r; reflexivity. }
    destruct Hcalls as [Hcalls Hlevel].
    rewrite sends_of_calls, closes_of_calls, Hcalls.
    repeat split; try assumption; destruct stale; cbn; lia.
Qed.

End StateMachine.

(** ** The properties at work on the scenarios *)

Lemma check_read_error_aborts_witness :
  state_of (check Scenario.rt (Scenario.start Scenario.bus_up Scenario.unreadable_capacity))
    = Scenario.start Scenario.bus_up Scenario.unreadable_capacity
  /\ state_of (check Scenario.rt (Scenario.start Scenario.bus_up Scenario.unreadable))
    = Scenario.start Scenario.bus_up Scenario.unreadable.
Proof.
  split.
  - apply (check_read_error_aborts Scenario.rt
             (Scenario.start Scenario.bus_up Scenario.unreadable_capacity)
             (errorString "no such file")).
    right. split; [reflexivity | exists 0; reflexivity].
  - apply (check_read_error_aborts Scenario.rt
             (Scenario.start Scenario.bus_up Scenario.unreadable)
             (errorString "no such file")).
    left. exists false. reflexivity.
Defined.

Lemma check_classifies_witness :
  currentLevel (state_of (check Scenario.rt
                            (Scenario.start Scenario.bus_up (Scenario.discharging 9))))
    = "critical"
  /\ currentLevel (state_of (check Scenario.rt
                               (Scenario.at_level Scenario.bus_up (Scenario.charging 5) "low" 1)))
    = "normal".
Proof.
  split.
  - destruct (check_classifies Scenario.rt
                (Scenario.start Scenario.bus_up (Scenario.discharging 9)) false 9)
      as (_ & H & _); [reflexivity | reflexivity |].
    rewrite H. reflexivity.
  - destruct (check_classifies Scenario.rt
                (Scenario.at_level Scenario.bus_up (Scenario.charging 5) "low" 1) true 5)
      as (_ & H & _); [reflexivity | discriminate |].
    rewrite H. reflexivity.
Defined.

Lemma check_charging_reachable_witness :
  let prior := state_of (ticks Scenario.rt [Scenario.discharging 18]
                           (Scenario.start Scenario.bus_up (Scenario.discharging 25))) in
  let m := mkMonitor (config prior) (Scenario.charging 5) (notifier prior)
                     (currentLevel prior) (notificationID prior) in
  currentLevel prior = "low"
  /\ notificationID prior = 1
  /\ currentLevel (state_of (check Scenario.rt m)) = "normal"
  /\ notificationID (state_of (check Scenario.rt m)) = 0
  /\ closes (effects_of (check Scenario.rt m)) = [EClose 1 None].
Proof.
  cbv zeta.
  destruct (check_charging_reachable (HB := Reading_Battery) Scenario.rt
              Scenario.cfg (Scenario.discharging 25)
              (mkDBusNotifier Scenario.bus_up "Battery Monitor")
              [Scenario.discharging 18] (Scenario.charging 5) eq_refl)
    as (_ & Hl & Hid & _ & _ & Hclose & _).
  split; [reflexivity |]. split; [reflexivity |].
  split; [exact Hl |]. split; [exact Hid |].
  etransitivity; [exact Hclose | reflexivity].
Defined.

Lemma check_send_failure_witness :
  currentLevel (state_of (check Scenario.rt
                            (Scenario.start Scenario.bus_down (Scenario.discharging 15))))
    = "low"
  /\ notificationID (state_of (check Scenario.rt
                                 (Scenario.start Scenario.bus_down (Scenario.discharging 15))))
     = 0.
Proof.
  destruct (check_send_failure Scenario.rt
              (Scenario.start Scenario.bus_down (Scenario.discharging 15))
              15 "low" (LowBattery Scenario.cfg) 0 (errorString "connection closed")
              (snd (Send (notifier (Scenario.start Scenario.bus_down (Scenario.discharging 15)))
                         "Battery low" "Battery at %d%%" "critical" "battery-low")))
    as (_ & Hid & Hl & _).
  - reflexivity.
  - reflexivity.
  - reflexivity.
  - discriminate.
  - discriminate.
  - reflexivity.
  - split; [exact Hl | exact Hid].
Defined.

(** C1 as stated fails: the monitor of [main] meets capacity 15 (level low)
    while the notification service is down. The send is made and fails, yet
    the level is low afterwards, not normal as before; and the next tick at
    capacity 15 sends nothing. *)
Lemma send_failure_advances_level :
  let m := Scenario.start Scenario.bus_down (Scenario.discharging 15) in
  let r := check Scenario.rt m in
  currentLevel m = "normal"
  /\ fst (newLevel (config m) 15) = "low"
  /\ sends (effects_of r)
     = [ESend "Battery low" "Battery at %d%%" "critical" "battery-low"
              (0, Some (errorString "connection closed"))]
  /\ currentLevel (state_of r) = "low"
  /\ currentLevel (state_of r) <> currentLevel m
  /\ sends (effects_of (tick Scenario.rt (Scenario.discharging 15) (state_of r))) = [].
Proof.
  cbv zeta. repeat split; try reflexivity. vm_compute. discriminate.
Qed.

Lemma check_invariant_witness :
  invariant (Scenario.start Scenario.bus_up (Scenario.discharging 15))
  /\ invariant (state_of (check Scenario.rt
                            (Scenario.start Scenario.bus_up (Scenario.discharging 15))))
  /\ normal_is_clear (state_of (check Scenario.rt
                                  (Scenario.start Scenario.bus_down (Scenario.discharging 15)))).
Proof.
  destruct (check_invariant Scenario.rt Scenario.cfg (Scenario.discharging 15)
              (mkDBusNotifier Scenario.bus_up "Battery Monitor")
              (Scenario.start Scenario.bus_up (Scenario.discharging 15)))
    as (Hinit & _ & Hkeep).
  destruct (check_invariant Scenario.rt Scenario.cfg (Scenario.discharging 15)
              (mkDBusNotifier Scenario.bus_down "Battery Monitor")
              (Scenario.start Scenario.bus_down (Scenario.discharging 15)))
    as (_ & Hclear & _).
  split; [exact Hinit |]. split.
  - apply Hkeep; [exact Hinit | reflexivity].
  - apply Hclear. unfold normal_is_clear. reflexivity.
Defined.

(** C2 as stated fails at the same tick: the monitor of [main] satisfies the
    invariant, and after the failed send the level is low with identifier 0. *)
Lemma failed_send_breaks_invariant :
  let m := Scenario.start Scenario.bus_down (Scenario.discharging 15) in
  invariant m
  /\ currentLevel (state_of (check Scenario.rt m)) = "low"
  /\ notificationID (state_of (check Scenario.rt m)) = 0
  /\ ~ invariant (state_of (check Scenario.rt m)).
Proof.
  cbv zeta. split; [| split; [reflexivity | split; [reflexivity |]]].
  - unfold invariant. cbn. split; congruence.
  - unfold invariant. intros [_ H].
    apply H; [vm_compute; discriminate | reflexivity].
Qed.

Lemma edge_triggered_witness :
  state_of (check Scenario.rt
              (Scenario.at_level Scenario.bus_up (Scenario.discharging 18) "low" 1))
    = Scenario.at_level Scenario.bus_up (Scenario.discharging 18) "low" 1
  /\ List.length (sends (effects_of
       (ticks Scenario.rt
          [Scenario.discharging 25; Scenario.discharging 18;
           Scenario.discharging 17; Scenario.discharging 9]
          (Scenario.start Scenario.bus_up (Scenario.discharging 25))))) = 2%nat.
Proof.
  destruct (edge_triggered (B := Reading) (N := DBusNotifier) Scenario.rt) as [Hsame Hseq].
  split.
  - apply (Hsame (Scenario.at_level Scenario.bus_up (Scenario.discharging 18) "low" 1)
                 false 18); reflexivity.
  - apply (Hseq Scenario.cfg (mkDBusNotifier Scenario.bus_up "Battery Monitor")
                (Scenario.discharging 25)
                (Scenario.discharging 25) (Scenario.discharging 18)
                (Scenario.discharging 17) (Scenario.discharging 9) 25 18 17 9).
    + repeat constructor.
    + reflexivity.
    + reflexivity.
Defined.

(** The scenario of the specification: thresholds 20 and 10, capacities 25,
    18, 9, 30 while discharging. The notifier sees a send at the second and
    at the third tick, the close of the first notification after the second
    send, and the close of the second notification at the fourth tick. *)
Example scenario_25_18_9_30 :
  let r := ticks Scenario.rt
             [Scenario.discharging 25; Scenario.discharging 18;
              Scenario.discharging 9; Scenario.discharging 30]
             (Scenario.start Scenario.bus_up (Scenario.discharging 25)) in
  notifier_calls (effects_of r)
    = [ESend "Battery low" "Battery at %d%%" "critical" "battery-low" (1, None);
       ESend "Battery critical" "Battery at %d%%, plug in now" "critical"
             "battery-caution" (2, None);
       EClose 1 None;
       EClose 2 None]
  /\ currentLevel (state_of r) = "normal"
  /\ notificationID (state_of r) = 0.
Proof. cbv zeta. repeat split; reflexivity. Qed.

(** * Further properties of the code *)

(** ** The state machine, path by path *)

Section Coverage.
Context {B N : Type} {HB : Battery B} {HN : Notifier N}.
Variable rt : Runtime.
Implicit Types m : Monitor B N.

Ltac check_cases m :=
  let c := fresh "c" in
  let e := fresh "e" in
  let k := fresh "k" in
  let nl := fresh "nl" in
  let lv := fresh "lv" in
  let id := fresh "id" in
  let n1 := fresh "n1" in
  let Hc := fresh "Hc" in
  let Hk := fresh "Hk" in
  let Hn := fresh "Hn" in
  let Hs := fresh "Hs" in
  let Hcur := fresh "Hcur" in
  let Hnorm := fresh "Hnorm" in
  destruct (IsCharging (battery m)) as [c [e|]] eqn:Hc;
  [ rewrite (check_status_error rt m c e Hc)
  | destruct c;
    [ destruct (String.eqb_spec (currentLevel m) "normal") as [Hcur|Hcur];
      [ rewrite (check_charging_normal rt m Hc Hcur)
      | rewrite (check_charging_alert rt m Hc Hcur) ]
    | destruct (Capacity (battery m)) as [k [e|]] eqn:Hk;
      [ rewrite (check_capacity_error rt m k e Hc Hk)
      | destruct (newLevel (config m) k) as [nl lv] eqn:Hn;
        destruct (String.eqb_spec nl (currentLevel m)) as [Hcur|Hcur];
        [ rewrite (check_same rt m k Hc Hk
                     (eq_trans (f_equal fst Hn) Hcur))
        | destruct (String.eqb_spec nl "normal") as [Hnorm|Hnorm];
          [ rewrite (check_recover rt m k Hc Hk
                       (eq_trans (f_equal fst Hn) Hnorm)
                       (fun H => Hcur (eq_trans Hnorm (eq_sym H))))
          | destruct (Send (notifier m) (Title lv) (Sprintf rt (Message lv) k)
                           "critical" (Icon lv)) as [[id [e|]] n1] eqn:Hs;
            [ rewrite (check_enter_failed rt m k nl lv id e n1 Hc Hk Hn Hcur Hnorm Hs)
            | rewrite (check_enter_sent rt m k nl lv id n1 Hc Hk Hn Hcur Hnorm Hs) ]
          ] ] ] ] ].

(** The trailing parts of the effects of a path, case by case. *)
Ltac tails :=
  unfold played, close_log;
  repeat match goal with
         | |- context [if ?b then _ else _] => destruct b
         | |- context [match ?x with Some _ => _ | None => _ end] => destruct x
         end.

(** X1. [check] returns an error exactly when a read of the battery fails:
    the status read, or the capacity read of a battery that is not charging.
    A notifier that fails never makes [check] fail. *)
Theorem check_error_iff_read_error m :
  value_of (check rt m) = None
  <-> exists c, IsCharging (battery m) = (c, None)
                /\ (c = false -> exists k, Capacity (battery m) = (k, None)).
Proof.
  check_cases m; cbn; split; intros H; try reflexivity; try discriminate.
  - destruct H as (c' & H & _). discriminate.
  - exists true. split; [reflexivity | discriminate].
  - exists true. split; [reflexivity | discriminate].
  - destruct H as (c' & H & Hk'). injection H as <-.
    destruct (Hk' eq_refl) as [k' Hk'']. discriminate.
  - exists false. split; [reflexivity | eauto].
  - exists false. split; [reflexivity | eauto].
  - exists false. split; [reflexivity | eauto].
  - exists false. split; [reflexivity | eauto].
Qed.

(** X2. Recovery. When a battery that is not charging is above both
    thresholds and the level is not normal, the check closes the
    notification on display, once, and ends at level normal with identifier
    0, also when the close fails; it sends nothing and starts no sound. *)
Theorem check_recovery m (k : Z) :
  IsCharging (battery m) = (false, None) ->
  Capacity (battery m) = (k, None) ->
  Threshold (CriticalBattery (config m)) < k ->
  Threshold (LowBattery (config m)) < k ->
  currentLevel m <> "normal" ->
  value_of (check rt m) = None
  /\ currentLevel (state_of (check rt m)) = "normal"
  /\ notificationID (state_of (check rt m)) = 0
  /\ notifier (state_of (check rt m)) = snd (Close (notifier m) (notificationID m))
  /\ notifier_calls (effects_of (check rt m))
     = [EClose (notificationID m) (fst (Close (notifier m) (notificationID m)))]
  /\ List.filter is_play (effects_of (check rt m)) = [].
Proof.
  intros Hc Hk Hcrit Hlow Hcur.
  assert (Hn : fst (newLevel (config m) k) = "normal").
  { destruct (newLevel_cases (config m) k) as [[H _] | [[H _] | (_ & _ & E)]];
      [lia | lia | rewrite E; reflexivity]. }
  rewrite (check_recover rt m k Hc Hk Hn Hcur). cbn.
  destruct (fst (Close (notifier m) (notificationID m))); cbn; auto 10.
Qed.

(** X3. Entering an alert level with a send that succeeds. The monitor takes
    the new level and the identifier the send returned. The notifier is
    called for the send, with the title and icon of the level, the message
    formatted with the capacity and urgency "critical", and after it for the
    close of the old notification exactly when there was one (identifier
    other than 0) and the send returned another identifier. *)
Theorem check_alert_sent m (k : Z) (nl : string) (lv : BatteryLevel)
    (id : Z) (n1 : N) :
  IsCharging (battery m) = (false, None) ->
  Capacity (battery m) = (k, None) ->
  newLevel (config m) k = (nl, lv) ->
  nl <> currentLevel m ->
  nl <> "normal" ->
  Send (notifier m) (Title lv) (Sprintf rt (Message lv) k) "critical" (Icon lv)
    = ((id, None), n1) ->
  let old := notificationID m in
  let stale := negb (Z.eqb old 0) && negb (Z.eqb old id) in
  value_of (check rt m) = None
  /\ currentLevel (state_of (check rt m)) = nl
  /\ notificationID (state_of (check rt m)) = id
  /\ notifier (state_of (check rt m)) = (if stale then snd (Close n1 old) else n1)
  /\ notifier_calls (effects_of (check rt m))
     = ESend (Title lv) (Sprintf rt (Message lv) k) "critical" (Icon lv) (id, None)
       :: (if stale then [EClose old (fst (Close n1 old))] else []).
Proof.
  intros Hc Hk Hn Hcur Hnorm Hs old stale.
  rewrite (check_enter_sent rt m k nl lv id n1 Hc Hk Hn Hcur Hnorm Hs).
  fold old. fold stale. cbn.
  rewrite notifier_calls_app, played_no_notifier_call, app_nil_r.
  destruct stale; cbn; auto 10.
Qed.

(** X4. The sound. A check starts the sound of a level exactly when it
    enters that level (a battery that is not charging, read without error,
    at a level other than normal and other than the current one) and the
    level has a sound file; whether the send succeeded plays no part. Every
    other check starts none. *)
Theorem check_sound m :
  List.filter is_play (effects_of (check rt m))
  = match IsCharging (battery m), Capacity (battery m) with
    | (false, None), (k, None) =>
      let '(nl, lv) := newLevel (config m) k in
      if negb (String.eqb nl (currentLevel m)) && negb (String.eqb nl "normal")
      then played rt (Sound lv)
      else []
    | _, _ => []
    end.
Proof.
  check_cases m; cbn; rewrite ?List.filter_app; cbn;
    try destruct c; tails; reflexivity.
Qed.

(** X5. What one check asks of its collaborators: the status of the battery
    once and first, its capacity at most once, at most one send and at most
    one close; and every send is made with urgency "critical", for the low
    level as for the critical one. *)
Theorem check_call_bounds m :
  List.filter is_status (effects_of (check rt m))
    = [EIsCharging (IsCharging (battery m))]
  /\ List.hd_error (effects_of (check rt m))
     = Some (EIsCharging (IsCharging (battery m)))
  /\ (List.length (List.filter is_capacity (effects_of (check rt m))) <= 1)%nat
  /\ (List.length (sends (effects_of (check rt m))) <= 1)%nat
  /\ (List.length (closes (effects_of (check rt m))) <= 1)%nat
  /\ Forall (sent_as "critical") (effects_of (check rt m)).
Proof.
  unfold sends, closes.
  check_cases m; cbn; rewrite ?List.filter_app; cbn;
    (split; [tails; reflexivity |]);
    (split; [reflexivity |]);
    (split; [tails; cbn; lia |]);
    (split; [tails; cbn; lia |]);
    (split; [tails; cbn; lia |]);
    tails; repeat constructor.
Qed.

(** ** Checks in a row *)

Lemma check_frame m :
  config (state_of (check rt m)) = config m
  /\ battery (state_of (check rt m)) = battery m.
Proof. check_cases m; split; reflexivity. Qed.

Lemma check_value m :
  value_of (check rt m)
  = match IsCharging (battery m) with
    | (_, Some e) => Some (wrapError "read charging status: %w" e)
    | (true, None) => None
    | (false, None) =>
      match Capacity (battery m) with
      | (_, Some e) => Some (wrapError "read capacity: %w" e)
      | (_, None) => None
      end
    end.
Proof. check_cases m; try destruct c; reflexivity. Qed.

Lemma settled_check_silent m :
  settled m ->
  check rt m = ((value_of (check rt m), m), effects_of (check rt m))
  /\ notifier_calls (effects_of (check rt m)) = []
  /\ List.filter is_play (effects_of (check rt m)) = [].
Proof.
  unfold settled. intros H.
  destruct (IsCharging (battery m)) as [c [e|]] eqn:Hc.
  - rewrite (check_status_error rt m c e Hc). auto.
  - destruct c.
    + rewrite (check_charging_normal rt m Hc H). auto.
    + destruct (Capacity (battery m)) as [k [e|]] eqn:Hk.
      * rewrite (check_capacity_error rt m k e Hc Hk). auto.
      * rewrite (check_same rt m k Hc Hk H). auto.
Qed.

Lemma check_settles m : settled (state_of (check rt m)).
Proof.
  unfold settled. destruct (check_frame m) as [Hcfg Hbat]. rewrite Hcfg, Hbat.
  destruct (IsCharging (battery m)) as [c [e|]] eqn:Hc; [destruct c; exact I |].
  destruct c.
  - apply check_level_charging. exact Hc.
  - destruct (Capacity (battery m)) as [k [e|]] eqn:Hk; [exact I |].
    symmetry. apply check_level; assumption.
Qed.

(** X6. A check settles the monitor: checked again in front of the same
    battery, the monitor stays as the first check left it, the notifier is
    not called and no sound is started. This holds for every monitor and
    every battery, whatever the notifier answered the first time, a failed
    send included. *)
Theorem check_twice_silent m :
  let m1 := state_of (check rt m) in
  state_of (check rt m1) = m1
  /\ notifier_calls (effects_of (check rt m1)) = []
  /\ List.filter is_play (effects_of (check rt m1)) = []
  /\ value_of (check rt m1) = value_of (check rt m).
Proof.
  cbn zeta.
  destruct (settled_check_silent (state_of (check rt m)) (check_settles m))
    as (Heq & Hcalls & Hplay).
  split; [rewrite Heq; reflexivity |]. split; [exact Hcalls |].
  split; [exact Hplay |].
  rewrite (check_value (state_of (check rt m))), (check_value m).
  destruct (check_frame m) as [_ Hbat]. rewrite Hbat. reflexivity.
Qed.

(** ** The poll loop *)

Lemma tick_config (b : B) m : config (state_of (tick rt b m)) = config m.
Proof.
  rewrite tick_eq. cbn zeta.
  change (state_of (_, state_of ?r, _)) with (state_of r).
  destruct (check_frame (mkMonitor (config m) b (notifier m) (currentLevel m)
                                   (notificationID m))) as [H _].
  exact H.
Qed.

Lemma run_eq (bs : list B) m :
  run rt bs m =
    ((run_end (config m) bs, state_of (ticks rt (polled (config m) bs) m)),
     [ELog "Starting battery monitor (poll interval: %ds)"
           [LInt (PollInterval (config m))];
      ELog "Low threshold: %d%%, Critical threshold: %d%%"
           [LInt (Threshold (LowBattery (config m)));
            LInt (Threshold (CriticalBattery (config m)))]]
     ++ effects_of (ticks rt (polled (config m) bs) m)).
Proof.
  unfold run, get, logPrintf, emit, mbind, mret, Act_bind, Act_ret. cbn.
  destruct bs as [|b later]; [reflexivity |].
  unfold polled, run_end.
  pose proof (tick_config b m) as Hcfg.
  destruct (tickerInterval (PollInterval (config m)) <=? 0) eqn:Hint.
  - cbn [ticks]. unfold mbind, mret, Act_bind, Act_ret.
    destruct (tick rt b m) as [[[] m1] t1]. cbn in Hcfg. cbn.
    rewrite Hcfg, Hint. rewrite !app_nil_r. reflexivity.
  - rewrite ticks_cons.
    destruct (tick rt b m) as [[[] m1] t1]. cbn in Hcfg. cbn.
    rewrite Hcfg, Hint.
    destruct (ticks rt later m1) as [[[] m2] t2]. cbn.
    rewrite !app_nil_r. reflexivity.
Qed.

Lemma ticks_invariant (P : Monitor B N -> Prop) :
  (forall b m, P m -> P (state_of (tick rt b m))) ->
  forall bs m, P m -> P (state_of (ticks rt bs m)).
Proof.
  intros Hstep bs. induction bs as [|b bs IH]; intros m Hm; [exact Hm |].
  rewrite ticks_cons. apply IH, Hstep, Hm.
Qed.

Lemma tick_state (b : B) m :
  state_of (tick rt b m)
  = state_of (check rt (mkMonitor (config m) b (notifier m) (currentLevel m)
                                  (notificationID m))).
Proof. rewrite tick_eq. reflexivity. Qed.

Lemma check_keeps_known_level m :
  known_level (currentLevel m) -> known_level (currentLevel (state_of (check rt m))).
Proof.
  unfold known_level. intros Hm.
  check_cases m; cbn; auto;
    destruct (newLevel_cases (config m) k) as [[_ E] | [[_ E] | (_ & _ & E)]];
    rewrite E in Hn; injection Hn as <- <-; auto.
Qed.

Lemma check_status_reads m :
  List.filter is_status (effects_of (check rt m))
  = [EIsCharging (IsCharging (battery m))].
Proof.
  check_cases m; cbn; rewrite ?List.filter_app; cbn; tails; reflexivity.
Qed.

Lemma tick_status_reads (b : B) m :
  List.filter is_status (effects_of (tick rt b m)) = [EIsCharging (IsCharging b)].
Proof.
  rewrite tick_eq. cbn zeta. cbn [effects_of snd].
  rewrite List.filter_app, check_status_reads. cbn [battery].
  destruct (value_of (check rt _)); reflexivity.
Qed.

(** X7. No failure stops the poll loop. Over any sequence of batteries, with
    reads, sends and closes failing as they may, the loop reads the status
    of every battery exactly once and in order: the status reads among the
    effects are those of the batteries, one after the other. *)
Theorem ticks_poll_every_battery (bs : list B) m :
  List.filter is_status (effects_of (ticks rt bs m))
  = List.map (fun b => EIsCharging (IsCharging b)) bs.
Proof.
  revert m. induction bs as [|b bs IH]; intros m; [reflexivity |].
  rewrite ticks_cons. cbn [effects_of snd List.map].
  rewrite List.filter_app, IH, tick_status_reads. reflexivity.
Qed.

Lemma run_config (bs : list B) m : config (state_of (run rt bs m)) = config m.
Proof.
  rewrite run_eq. cbn [state_of fst snd].
  apply (ticks_invariant (fun m' => config m' = config m)); [| reflexivity].
  intros b' m' Hm. rewrite tick_state.
  destruct (check_frame (mkMonitor (config m') b' (notifier m') (currentLevel m')
                                   (notificationID m'))) as [Hcfg _].
  rewrite Hcfg. exact Hm.
Qed.

Lemma run_known_level (bs : list B) m :
  known_level (currentLevel m) ->
  known_level (currentLevel (state_of (run rt bs m))).
Proof.
  intros H. rewrite run_eq. cbn [state_of fst snd].
  apply (ticks_invariant (fun m' => known_level (currentLevel m'))); [| exact H].
  intros b' m' Hm. rewrite tick_state.
  apply check_keeps_known_level. exact Hm.
Qed.

Lemma run_keeps_normal_clear (bs : list B) m :
  normal_is_clear m -> normal_is_clear (state_of (run rt bs m)).
Proof.
  intros H. rewrite run_eq. cbn [state_of fst snd].
  apply (ticks_invariant normal_is_clear); [| exact H].
  intros b' m' Hm. apply tick_keeps_normal_clear. exact Hm.
Qed.

(** X8. What holds of the monitor however long the daemon has run, from the
    monitor [main] builds: its configuration is the one it was built with,
    its level is one of "normal", "low" and "critical", and at level
    "normal" its identifier is 0. *)
Theorem run_invariants (c : Config) (b : B) (n : N) (bs : list B) :
  let m := state_of (run rt bs (newMonitor c b n)) in
  config m = c
  /\ known_level (currentLevel m)
  /\ normal_is_clear m.
Proof.
  cbn zeta. split; [| split].
  - apply run_config.
  - apply run_known_level. left. reflexivity.
  - apply run_keeps_normal_clear. intros _. reflexivity.
Qed.

End Coverage.

(** ** The thresholds *)

(** X9. The thresholds are inclusive and the critical one is tested first:
    the level is "critical" exactly up to the critical threshold, "low"
    exactly above it and up to the low threshold, "normal" exactly above
    both; and the level comes with the texts of its own [BatteryLevel]. *)
Theorem newLevel_thresholds (c : Config) (k : Z) :
  (fst (newLevel c k) = "critical" <-> k <= Threshold (CriticalBattery c))
  /\ (fst (newLevel c k) = "low"
      <-> Threshold (CriticalBattery c) < k <= Threshold (LowBattery c))
  /\ (fst (newLevel c k) = "normal"
      <-> Threshold (CriticalBattery c) < k /\ Threshold (LowBattery c) < k)
  /\ (fst (newLevel c k) = "critical" -> snd (newLevel c k) = CriticalBattery c)
  /\ (fst (newLevel c k) = "low" -> snd (newLevel c k) = LowBattery c).
Proof.
  destruct (newLevel_cases c k) as [[H E] | [[H E] | (H & H' & E)]];
    rewrite E; cbn; repeat split; intros; try discriminate; try lia; try reflexivity.
Qed.

(** X10. With the low threshold at or below the critical one, no capacity is
    ever classified as "low": every capacity is "critical" or "normal", and
    the texts of the low level are never used. *)
Theorem newLevel_never_low_when_inverted (c : Config) (k : Z) :
  Threshold (LowBattery c) <= Threshold (CriticalBattery c) ->
  fst (newLevel c k) <> "low"
  /\ (fst (newLevel c k) = "critical" \/ fst (newLevel c k) = "normal").
Proof.
  intros Hinv.
  destruct (newLevel_cases c k) as [[H E] | [[H E] | (H & H' & E)]];
    rewrite E; cbn; try lia; split; auto; discriminate.
Qed.

Lemma newLevel_never_low_when_inverted_witness :
  fst (newLevel (mkConfig "Battery Monitor" 5
                          (mkBatteryLevel 10 "" "" "" "")
                          (mkBatteryLevel 20 "" "" "" "")) 15) <> "low".
Proof.
  apply (newLevel_never_low_when_inverted
           (mkConfig "Battery Monitor" 5
                     (mkBatteryLevel 10 "" "" "" "")
                     (mkBatteryLevel 20 "" "" "" "")) 15).
  cbn. lia.
Defined.

(** ** The monitor on the D-Bus notifier *)

Section OnDBus.
Context {B : Type} {HB : Battery B}.
Variable rt : Runtime.
Implicit Types m : Monitor B DBusNotifier.
Implicit Types n : DBusNotifier.

Lemma grows_refl n : grows n n.
Proof.
  split; [reflexivity |]. split; [reflexivity |].
  exists []. rewrite app_nil_r. split; [reflexivity | constructor].
Qed.

Lemma grows_trans n1 n2 n3 : grows n1 n2 -> grows n2 n3 -> grows n1 n3.
Proof.
  intros (Ha & Hr & new & Hc & Hf) (Ha' & Hr' & new' & Hc' & Hf').
  split; [congruence |]. split; [congruence |].
  exists (new ++ new'). split.
  - rewrite Hc', Hc, app_assoc. reflexivity.
  - apply Forall_app. split; [exact Hf |]. rewrite <- Ha. exact Hf'.
Qed.

Lemma Send_grows n (summary body icon : string) :
  grows n (snd (Send n summary body "critical" icon)).
Proof.
  cbn. unfold DBus.Send, obj_Call.
  destruct (Err (respond (obj n) (calls (obj n)) _)); cbn;
    (split; [reflexivity |]); (split; [reflexivity |]);
    exists [mkMethodCall "org.freedesktop.Notifications.Notify" 0
                         (DBus.notify n summary body "critical" icon)];
    (split; [reflexivity |]);
    (constructor; [| constructor]); left; unfold DBus.notify; eauto.
Qed.

Lemma Close_grows n (id : Z) : grows n (snd (Close n id)).
Proof.
  cbn. unfold DBus.Close, obj_Call.
  destruct (Z.eqb_spec id 0) as [Hid|Hid]; cbn; [apply grows_refl |].
  split; [reflexivity |]. split; [reflexivity |].
  exists [mkMethodCall "org.freedesktop.Notifications.CloseNotification" 0 [AUint32 id]].
  split; [reflexivity |].
  constructor; [| constructor]. right. eauto.
Qed.

Lemma check_grows m : grows (notifier m) (notifier (state_of (check rt m))).
Proof.
  destruct (IsCharging (battery m)) as [c [e|]] eqn:Hc.
  { rewrite (check_status_error rt m c e Hc). apply grows_refl. }
  destruct c.
  { destruct (String.eqb_spec (currentLevel m) "normal") as [Hcur|Hcur].
    - rewrite (check_charging_normal rt m Hc Hcur). apply grows_refl.
    - rewrite (check_charging_alert rt m Hc Hcur). apply Close_grows. }
  destruct (Capacity (battery m)) as [k [e|]] eqn:Hk.
  { rewrite (check_capacity_error rt m k e Hc Hk). apply grows_refl. }
  destruct (newLevel (config m) k) as [nl lv] eqn:Hn.
  destruct (String.eqb_spec nl (currentLevel m)) as [Hcur|Hcur].
  { rewrite (check_same rt m k Hc Hk (eq_trans (f_equal fst Hn) Hcur)).
    apply grows_refl. }
  destruct (String.eqb_spec nl "normal") as [Hnorm|Hnorm].
  { rewrite (check_recover rt m k Hc Hk (eq_trans (f_equal fst Hn) Hnorm)
               (fun H => Hcur (eq_trans Hnorm (eq_sym H)))).
    apply Close_grows. }
  pose proof (Send_grows (notifier m) (Title lv) (Sprintf rt (Message lv) k) (Icon lv))
    as Hsend.
  destruct (Send (notifier m) (Title lv) (Sprintf rt (Message lv) k)
                 "critical" (Icon lv)) as [[id [e|]] n1] eqn:Hs.
  - rewrite (check_enter_failed rt m k nl lv id e n1 Hc Hk Hn Hcur Hnorm Hs).
    exact Hsend.
  - rewrite (check_enter_sent rt m k nl lv id n1 Hc Hk Hn Hcur Hnorm Hs).
    cbn [state_of fst snd notifier].
    destruct (negb (Z.eqb (notificationID m) 0) && negb (Z.eqb (notificationID m) id)).
    + apply (grows_trans _ n1); [exact Hsend | apply Close_grows].
    + exact Hsend.
Qed.

Lemma run_grows (bs : list B) m :
  grows (notifier m) (notifier (state_of (run rt bs m))).
Proof.
  rewrite run_eq. cbn [state_of fst snd].
  apply (ticks_invariant rt (fun m' => grows (notifier m) (notifier m')));
    [| apply grows_refl].
  intros b' m' Hm. rewrite tick_state.
  apply (grows_trans _ (notifier m')); [exact Hm |].
  apply (check_grows (mkMonitor (config m') b' (notifier m') (currentLevel m')
                                (notificationID m'))).
Qed.

(** X11. What the daemon puts on the bus. However long the monitor runs on
    the D-Bus notifier, the calls it has added to those already made are all
    of two kinds: a [Notify] under the notifier's application name that
    replaces no notification (replaces_id 0), has no actions, never expires
    (timeout 0) and carries the hints urgency 2, resident, not transient; or
    a [CloseNotification] of an identifier other than 0. Earlier calls are
    kept, and the application name never changes. *)
Theorem run_bus_traffic (c : Config) (b : B) (n : DBusNotifier) (bs : list B) :
  let n' := notifier (state_of (run rt bs (newMonitor c b n))) in
  appName n' = appName n
  /\ (exists new,
         calls (obj n') = calls (obj n) ++ new
         /\ Forall (monitor_call (appName n)) new)
  /\ DBus.hints "critical" !! "urgency" = Some (VByte 2)
  /\ DBus.hints "critical" !! "resident" = Some (VBool true)
  /\ DBus.hints "critical" !! "transient" = Some (VBool false).
Proof.
  cbn zeta.
  destruct (run_grows bs (newMonitor c b n)) as (Ha & _ & Hnew).
  split; [exact Ha |]. split; [exact Hnew |].
  repeat split; reflexivity.
Qed.

End OnDBus.

(** ** Finding and reading the sysfs battery *)

Lemma probe_first_match (rt : Runtime) (fs : Files) (paths : list string) :
  (exists pre path post,
      paths = pre ++ path :: post
      /\ Forall (fun p => ~ usable rt fs p) pre
      /\ usable rt fs path
      /\ Sysfs.probe rt fs paths
         = ((Some (mkSysfsBattery (Join rt path "capacity") (Join rt path "status")),
             None),
            [ELog "Found battery at: %s" [LStr path]]))
  \/ (Forall (fun p => ~ usable rt fs p) paths
      /\ Sysfs.probe rt fs paths = ((None, Some (errorString "no battery found")), [])).
Proof.
  induction paths as [|path rest IH].
  - right. split; [constructor | reflexivity].
  - cbn [Sysfs.probe].
    destruct (fs_Stat fs (Join rt path "capacity")) as [e|] eqn:Hcap;
      [| destruct (fs_Stat fs (Join rt path "status")) as [e|] eqn:Hst].
    + assert (Hno : ~ usable rt fs path) by (intros [H _]; congruence).
      destruct IH as [(pre & p & post & -> & Hpre & Hp & Heq) | [Hall Heq]].
      * left. exists (path :: pre), p, post. repeat split; auto; apply Hp.
      * right. split; [constructor; assumption | exact Heq].
    + assert (Hno : ~ usable rt fs path) by (intros [_ H]; congruence).
      destruct IH as [(pre & p & post & -> & Hpre & Hp & Heq) | [Hall Heq]].
      * left. exists (path :: pre), p, post. repeat split; auto; apply Hp.
      * right. split; [constructor; assumption | exact Heq].
    + left. exists [], path, rest. repeat split; auto.
Qed.

(** X12. [NewSysfsBattery] takes the first candidate, in the order BAT0,
    BAT1, battery, that has both its capacity and its status file: every
    candidate before it lacks one of the two, the battery returned reads the
    two files of that one directory, and the directory is logged. When no
    candidate has both files it fails with "no battery found", returns no
    battery and logs nothing. *)
Theorem NewSysfsBattery_first_match (rt : Runtime) (fs : Files) :
  (exists pre path post,
      Sysfs.batteries = pre ++ path :: post
      /\ Forall (fun p => ~ usable rt fs p) pre
      /\ usable rt fs path
      /\ Sysfs.NewSysfsBattery rt fs
         = ((Some (mkSysfsBattery (Join rt path "capacity") (Join rt path "status")),
             None),
            [ELog "Found battery at: %s" [LStr path]]))
  \/ (Forall (fun p => ~ usable rt fs p) Sysfs.batteries
      /\ Sysfs.NewSysfsBattery rt fs
         = ((None, Some (errorString "no battery found")), [])).
Proof. apply probe_first_match. Qed.

(** X13. The battery counts as charging exactly when its status file is
    read without error and holds, white space trimmed, "Charging" or "Full";
    any other status is discharging. A status file that cannot be read gives
    that error, with the value false. *)
Theorem Sysfs_IsCharging_iff (lib : Lib) (fs : Files) (b : SysfsBattery) :
  (fst (Sysfs.IsCharging lib fs b) = true
   <-> exists data,
         fs_ReadFile fs (statusPath b) = (data, None)
         /\ (TrimSpace lib data = "Charging" \/ TrimSpace lib data = "Full"))
  /\ snd (Sysfs.IsCharging lib fs b) = snd (fs_ReadFile fs (statusPath b)).
Proof.
  unfold Sysfs.IsCharging.
  destruct (fs_ReadFile fs (statusPath b)) as [data [e|]]; cbn.
  - split; [| reflexivity]. split; [discriminate |].
    intros (d & H & _). discriminate.
  - split; [| reflexivity]. split.
    + intros H. exists data. split; [reflexivity |].
      apply orb_true_iff in H as [H|H]; apply String.eqb_eq in H; auto.
    + intros (d & H & Hs). injection H as <-.
      apply orb_true_iff. destruct Hs as [Hs|Hs]; rewrite Hs; auto.
Qed.

(** X14. The capacity is whatever integer [Atoi] reads in the trimmed
    capacity file, with no check of its range; the read fails exactly when
    the file cannot be read or its trimmed content is no integer, and a
    failed read returns the value 0 with the error of the step that
    failed. *)
Theorem Sysfs_Capacity_result (lib : Lib) (fs : Files) (b : SysfsBattery) :
  let res := Sysfs.Capacity lib fs b in
  let file := fs_ReadFile fs (capacityPath b) in
  let parsed := Atoi lib (TrimSpace lib (fst file)) in
  (snd res = None <-> snd file = None /\ snd parsed = None)
  /\ (snd res = None -> fst res = fst parsed)
  /\ (snd res <> None -> fst res = 0)
  /\ (snd file <> None -> snd res = snd file)
  /\ (snd file = None -> snd res = snd parsed).
Proof.
  cbn zeta. unfold Sysfs.Capacity.
  destruct (fs_ReadFile fs (capacityPath b)) as [data [e|]]; cbn.
  - repeat split; try discriminate; try congruence. intros [H _]. discriminate.
  - destruct (Atoi lib (TrimSpace lib data)) as [n [e|]]; cbn;
      repeat split; try discriminate; try congruence; intros [_ H]; discriminate.
Qed.

Section OnSysfs.
Context {N : Type} {HN : Notifier N}.
Variable rt : Runtime.
Variable lib : Lib.

(** X15. On mains the capacity file plays no part. When the status file
    holds "Charging" or "Full" (white space trimmed), the check succeeds and
    ends at level normal, and two file systems that agree on the status file
    give the same result, the same notifier and the same effects: the
    capacity file may hold anything, or be unreadable. *)
Theorem check_on_mains_ignores_capacity_file
    (d : SysfsBattery) (fs1 fs2 : Files) (c : Config) (n : N)
    (level : string) (id : Z) (data : string) :
  fs_ReadFile fs1 (statusPath d) = (data, None) ->
  fs_ReadFile fs2 (statusPath d) = (data, None) ->
  TrimSpace lib data = "Charging" \/ TrimSpace lib data = "Full" ->
  let r1 := check (HB := SysfsReading_Battery lib) rt
                  (mkMonitor c (mkSysfsReading d fs1) n level id) in
  let r2 := check (HB := SysfsReading_Battery lib) rt
                  (mkMonitor c (mkSysfsReading d fs2) n level id) in
  value_of r1 = None
  /\ currentLevel (state_of r1) = "normal"
  /\ value_of r2 = value_of r1
  /\ currentLevel (state_of r2) = currentLevel (state_of r1)
  /\ notificationID (state_of r2) = notificationID (state_of r1)
  /\ notifier (state_of r2) = notifier (state_of r1)
  /\ effects_of r2 = effects_of r1.
Proof.
  intros H1 H2 Hs. cbn zeta.
  assert (Hc : forall fs, fs_ReadFile fs (statusPath d) = (data, None) ->
                          IsCharging (Battery := SysfsReading_Battery lib)
                                     (mkSysfsReading d fs) = (true, None)).
  { intros fs Hfs. cbn. unfold Sysfs.IsCharging. rewrite Hfs.
    destruct Hs as [Hs|Hs]; rewrite Hs; reflexivity. }
  destruct (String.eqb_spec level "normal") as [Hl|Hl].
  - rewrite (check_charging_normal (HB := SysfsReading_Battery lib) rt
               (mkMonitor c (mkSysfsReading d fs1) n level id) (Hc fs1 H1) Hl).
    rewrite (check_charging_normal (HB := SysfsReading_Battery lib) rt
               (mkMonitor c (mkSysfsReading d fs2) n level id) (Hc fs2 H2) Hl).
    cbn. auto 10.
  - rewrite (check_charging_alert (HB := SysfsReading_Battery lib) rt
               (mkMonitor c (mkSysfsReading d fs1) n level id) (Hc fs1 H1) Hl).
    rewrite (check_charging_alert (HB := SysfsReading_Battery lib) rt
               (mkMonitor c (mkSysfsReading d fs2) n level id) (Hc fs2 H2) Hl).
    cbn. auto 10.
Qed.

End OnSysfs.

(** ** Start-up *)

Lemma loadConfig_cases
    (ReadFile : string -> string * option error)
    (Unmarshal : string -> Config -> Config * option error)
    (path : string) :
  (exists c, Loader.loadConfig ReadFile Unmarshal path = (Some c, None))
  \/ (exists e, Loader.loadConfig ReadFile Unmarshal path = (None, Some e)).
Proof.
  unfold Loader.loadConfig.
  destruct (ReadFile path) as [data [e|]]; [right; eauto |].
  destruct (Unmarshal data zeroConfig) as [parsed [e|]]; [right; eauto | left; eauto].
Qed.

(** X16. [loadConfig] returns either a configuration and no error, or no
    configuration and an error, never both and never neither; the error is
    the one of [os.ReadFile], or, when the file was read, the one of the
    decoder, handed on as it is. *)
Theorem loadConfig_result_exclusive
    (ReadFile : string -> string * option error)
    (Unmarshal : string -> Config -> Config * option error)
    (path : string) :
  (exists c, Loader.loadConfig ReadFile Unmarshal path = (Some c, None)
             /\ snd (ReadFile path) = None
             /\ snd (Unmarshal (fst (ReadFile path)) zeroConfig) = None)
  \/ (exists e, Loader.loadConfig ReadFile Unmarshal path = (None, Some e)
                /\ (snd (ReadFile path) = Some e
                    \/ (snd (ReadFile path) = None
                        /\ snd (Unmarshal (fst (ReadFile path)) zeroConfig) = Some e))).
Proof.
  unfold Loader.loadConfig.
  destruct (ReadFile path) as [data [e|]]; cbn.
  - right. exists e. auto.
  - destruct (Unmarshal data zeroConfig) as [parsed [e|]]; cbn.
    + right. exists e. auto.
    + left. eexists. auto.
Qed.

Lemma loadConfig_named
    (ReadFile : string -> string * option error)
    (Unmarshal : string -> Config -> Config * option error)
    (path : string) (c : Config) :
  Loader.loadConfig ReadFile Unmarshal path = (Some c, None) ->
  AppName c <> "" /\ PollInterval c <> 0.
Proof.
  unfold Loader.loadConfig.
  destruct (ReadFile path) as [data [e|]]; [discriminate |].
  destruct (Unmarshal data zeroConfig) as [[a p l r] [e|]]; [discriminate |].
  cbn. intros H. injection H as <-.
  destruct (Z.eqb_spec p 0); cbn; destruct (String.eqb_spec a ""); cbn;
    split; (discriminate || assumption || lia).
Qed.

Lemma NewSysfsBattery_result (rt : Runtime) (fs : Files) :
  (exists b t, Sysfs.NewSysfsBattery rt fs = ((Some b, None), t)
               /\ exists path, In path Sysfs.batteries
                               /\ usable rt fs path
                               /\ b = mkSysfsBattery (Join rt path "capacity")
                                                     (Join rt path "status"))
  \/ (Sysfs.NewSysfsBattery rt fs = ((None, Some (errorString "no battery found")), [])
      /\ Forall (fun p => ~ usable rt fs p) Sysfs.batteries).
Proof.
  unfold Sysfs.NewSysfsBattery.
  destruct (probe_first_match rt fs Sysfs.batteries)
    as [(pre & path & post & Heq & _ & Hu & Hp) | [Hall Hp]].
  - left. eexists. eexists. split; [exact Hp |].
    exists path. split; [| auto]. rewrite Heq. apply in_or_app. right. left. reflexivity.
  - right. auto.
Qed.

Lemma startup_cases (rt : Runtime) (h : Host) :
  let loaded := Loader.loadConfig (fs_ReadFile (host_files h)) (yaml_Unmarshal h)
                                  (configPath rt (Args h)) in
  (exists e, snd loaded = Some e
             /\ startup rt h = (Fatal "Failed to load config: %v" e, []))
  \/ (exists c, loaded = (Some c, None)
        /\ ((Forall (fun p => ~ usable rt (host_files h) p) Sysfs.batteries
             /\ startup rt h
                = (Fatal "Failed to find battery: %v" (errorString "no battery found"), []))
            \/ (exists b path,
                   In path Sysfs.batteries
                   /\ usable rt (host_files h) path
                   /\ b = mkSysfsBattery (Join rt path "capacity") (Join rt path "status")
                   /\ ((exists e, snd (SessionBus h) = Some e
                                  /\ fst (startup rt h)
                                     = Fatal "Failed to create notifier: %v" e)
                       \/ (snd (SessionBus h) = None
                           /\ fst (startup rt h)
                              = Started
                                  (mkMonitor c (mkSysfsReading b (host_files h))
                                     (mkDBusNotifier
                                        (fst (SessionBus h) "org.freedesktop.Notifications"
                                                            "/org/freedesktop/Notifications")
                                        (AppName c))
                                     "normal" 0)))))).
Proof.
  cbn zeta. unfold startup.
  destruct (loadConfig_cases (fs_ReadFile (host_files h)) (yaml_Unmarshal h)
              (configPath rt (Args h))) as [(c & ->) | (e & ->)].
  - right. exists c. split; [reflexivity |].
    destruct (NewSysfsBattery_result rt (host_files h))
      as [(b & t & -> & path & Hin & Hu & Hb) | [-> Hall]].
    + right. exists b, path. repeat (split; [assumption |]).
      unfold NewDBusNotifier. destruct (SessionBus h) as [conn [e|]]; cbn.
      * left. exists e. auto.
      * right. auto.
    + left. auto.
  - left. exists e. auto.
Qed.

(** X17. When the start-up gets as far as the monitor, the monitor is at
    level normal with identifier 0; its configuration is the one
    [loadConfig] returned, with a nonempty application name and a poll
    interval other than 0; its notifier carries that application name and
    no call has been made on the bus yet; and its battery reads the two
    files of one candidate directory that has both. *)
Theorem startup_started (rt : Runtime) (h : Host)
    (m : Monitor SysfsReading DBusNotifier) :
  fst (startup rt h) = Started m ->
  currentLevel m = "normal"
  /\ notificationID m = 0
  /\ Loader.loadConfig (fs_ReadFile (host_files h)) (yaml_Unmarshal h)
                       (configPath rt (Args h)) = (Some (config m), None)
  /\ AppName (config m) <> ""
  /\ PollInterval (config m) <> 0
  /\ appName (notifier m) = AppName (config m)
  /\ obj (notifier m) = fst (SessionBus h) "org.freedesktop.Notifications"
                                            "/org/freedesktop/Notifications"
  /\ files (battery m) = host_files h
  /\ exists path,
       In path Sysfs.batteries
       /\ usable rt (host_files h) path
       /\ device (battery m)
          = mkSysfsBattery (Join rt path "capacity") (Join rt path "status").
Proof.
  intros Hs.
  destruct (startup_cases rt h)
    as [(e & _ & Heq) | (c & Hload & [[_ Heq] | (b & path & Hin & Hu & Hb & Hbus)])].
  - rewrite Heq in Hs. discriminate.
  - rewrite Heq in Hs. discriminate.
  - destruct Hbus as [(e & _ & Heq) | [_ Heq]]; rewrite Heq in Hs; [discriminate |].
    injection Hs as <-. cbn.
    destruct (loadConfig_named _ _ _ _ Hload) as [Hname Hpoll].
    repeat split; auto. exists path. auto.
Qed.

(** X18. The start-up never meets a nil pointer, and it ends in
    [log.Fatalf] in three ways only, tried in this order: the configuration
    does not load; it loads and no candidate directory has both battery
    files; it loads, a battery is found and the session bus cannot be
    reached. *)
Theorem startup_fatal (rt : Runtime) (h : Host) :
  let loaded := Loader.loadConfig (fs_ReadFile (host_files h)) (yaml_Unmarshal h)
                                  (configPath rt (Args h)) in
  fst (startup rt h) <> NilPointer
  /\ forall format e,
       fst (startup rt h) = Fatal format e ->
       (format = "Failed to load config: %v" /\ snd loaded = Some e)
       \/ (format = "Failed to find battery: %v"
           /\ e = errorString "no battery found"
           /\ snd loaded = None
           /\ Forall (fun p => ~ usable rt (host_files h) p) Sysfs.batteries)
       \/ (format = "Failed to create notifier: %v"
           /\ snd (SessionBus h) = Some e
           /\ snd loaded = None
           /\ exists path, In path Sysfs.batteries /\ usable rt (host_files h) path).
Proof.
  cbn zeta.
  destruct (startup_cases rt h)
    as [(e & He & Heq) | (c & Hload & [[Hall Heq] | (b & path & Hin & Hu & Hb & Hbus)])].
  - rewrite Heq. cbn. split; [discriminate |].
    intros f e' H. injection H as <- <-. left. auto.
  - rewrite Heq. cbn. split; [discriminate |].
    intros f e' H. injection H as <- <-. right. left. rewrite Hload. auto.
  - destruct Hbus as [(e & He & Heq) | [_ Heq]]; rewrite Heq.
    + split; [discriminate |].
      intros f e' H. injection H as <- <-. right. right. rewrite Hload. eauto 10.
    + split; [discriminate |]. intros f e' H. discriminate.
Qed.

Lemma startup_effects (rt : Runtime) (h : Host) :
  snd (startup rt h) = []
  \/ exists path, snd (startup rt h) = [ELog "Found battery at: %s" [LStr path]].
Proof.
  unfold startup, Sysfs.NewSysfsBattery.
  destruct (Loader.loadConfig _ _ _) as [cfg [e|]]; [left; reflexivity |].
  destruct (probe_first_match rt (host_files h) Sysfs.batteries)
    as [(pre & p & post & _ & _ & _ & Hp) | [_ Hp]]; rewrite Hp.
  - right. exists p.
    destruct cfg; [| reflexivity].
    destruct (NewDBusNotifier _ _) as [n' [e|]]; [reflexivity |].
    destruct n'; reflexivity.
  - left. reflexivity.
Qed.

(** X19. The daemon from start to any later moment. When the start-up gets
    as far as the monitor, [main] runs the initial check. Then the ticker is
    made: when the poll interval times one second, computed in [int64], is
    not positive (a negative interval, or one so large that the product
    wraps around), [time.NewTicker] panics and the process ends there, after
    that one check; otherwise the daemon goes on with one check per turn of
    the ticker, whatever fails on the way. Either way the monitor it is left
    with has the configuration of the start-up, a level among "normal",
    "low" and "critical", identifier 0 at level normal, and the calls it has
    made on the bus are [Notify] calls under the nonempty application name
    of the configuration, with urgency "critical", and [CloseNotification]
    calls of identifiers other than 0. *)
Theorem main_running (rt : Runtime) (lib : Lib) (h : Host) (later : list Files)
    (m0 : Monitor SysfsReading DBusNotifier) :
  fst (startup rt h) = Started m0 ->
  let panics := tickerInterval (PollInterval (config m0)) <=? 0 in
  exists m,
    fst (main rt lib h later)
      = (if panics then Crashed "non-positive interval for NewTicker" m else Polling m)
    /\ List.length (List.filter is_status (snd (main rt lib h later)))
       = (if panics then 1%nat else S (List.length later))
    /\ config m = config m0
    /\ AppName (config m) <> ""
    /\ known_level (currentLevel m)
    /\ normal_is_clear m
    /\ appName (notifier m) = AppName (config m)
    /\ (exists new,
           calls (obj (notifier m)) = calls (obj (notifier m0)) ++ new
           /\ Forall (monitor_call (AppName (config m))) new).
Proof.
  intros Hs panics.
  assert (H0 : currentLevel m0 = "normal" /\ notificationID m0 = 0
               /\ AppName (config m0) <> ""
               /\ appName (notifier m0) = AppName (config m0)).
  { destruct (startup_cases rt h)
      as [(e & _ & Heq) | (c & Hload & [[_ Heq] | (b & path & _ & _ & _ & Hbus)])];
      [rewrite Heq in Hs; discriminate | rewrite Heq in Hs; discriminate |].
    destruct Hbus as [(e & _ & Heq) | [_ Heq]]; rewrite Heq in Hs; [discriminate |].
    injection Hs as <-. cbn.
    destruct (loadConfig_named _ _ _ _ Hload) as [Hname _]. auto. }
  destruct H0 as (Hl & Hid & Hname & Happ).
  unfold main. destruct (startup rt h) as [s t] eqn:Hst. cbn in Hs. subst s.
  cbn zeta.
  set (first := mkSysfsReading (device (battery m0)) (host_files h)).
  set (rest := List.map (mkSysfsReading (device (battery m0))) later).
  change (List.map (mkSysfsReading (device (battery m0))) (host_files h :: later))
    with (first :: rest).
  set (r := run (HB := SysfsReading_Battery lib) rt (first :: rest) m0).
  assert (Ht : List.filter is_status t = []).
  { pose proof (startup_effects rt h) as He. rewrite Hst in He. cbn in He.
    destruct He as [-> | [path ->]]; reflexivity. }
  assert (Hpoll : forall l m',
             List.length (List.filter is_status
                            (effects_of (ticks (HB := SysfsReading_Battery lib) rt l m')))
             = List.length l).
  { induction l as [|b' l IH]; intros m'; [reflexivity |].
    rewrite ticks_cons. cbn [effects_of snd].
    rewrite List.filter_app, length_app, IH.
    rewrite (tick_status_reads (HB := SysfsReading_Battery lib)). reflexivity. }
  assert (Hv : value_of r = run_end (config m0) (first :: rest)
               /\ List.length (List.filter is_status (t ++ effects_of r))
                  = List.length (polled (config m0) (first :: rest))).
  { subst r. rewrite run_eq. split; [reflexivity |].
    cbn [effects_of snd]. rewrite !List.filter_app, !length_app, Ht, Hpoll.
    reflexivity. }
  destruct Hv as [Hv Hn]. unfold run_end, polled in Hv, Hn. fold panics in Hv, Hn.
  pose proof (run_config (HB := SysfsReading_Battery lib) rt (first :: rest) m0) as Hcfg.
  destruct (run_grows (HB := SysfsReading_Battery lib) rt (first :: rest) m0)
    as (Ha & _ & new & Hc & Hf).
  fold r in Hcfg, Ha, Hc.
  exists (state_of r). rewrite Hv.
  split; [destruct panics; reflexivity |].
  split.
  { destruct panics; cbn [fst snd]; rewrite Hn; [reflexivity |].
    cbn [List.length]. subst rest. rewrite List.length_map. reflexivity. }
  split; [exact Hcfg |]. rewrite Hcfg.
  split; [exact Hname |].
  split; [apply run_known_level; left; exact Hl |].
  split; [apply run_keeps_normal_clear; intros _; exact Hid |].
  split; [congruence |].
  exists new. split; [exact Hc | rewrite <- Happ; exact Hf].
Qed.

(** ** These properties at work on the scenarios and fixtures *)

Lemma check_recovery_witness :
  currentLevel (state_of (check Scenario.rt
     (Scenario.at_level Scenario.bus_up (Scenario.discharging 30) "critical" 2)))
    = "normal"
  /\ notifier_calls (effects_of (check Scenario.rt
       (Scenario.at_level Scenario.bus_up (Scenario.discharging 30) "critical" 2)))
     = [EClose 2 None].
Proof.
  destruct (check_recovery Scenario.rt
              (Scenario.at_level Scenario.bus_up (Scenario.discharging 30) "critical" 2) 30)
    as (_ & Hl & _ & _ & Hc & _).
  - reflexivity.
  - reflexivity.
  - cbn. lia.
  - cbn. lia.
  - discriminate.
  - split; [exact Hl | rewrite Hc; reflexivity].
Defined.

Lemma check_alert_sent_witness :
  notificationID (state_of (check Scenario.rt
     (Scenario.at_level Scenario.bus_up (Scenario.discharging 9) "low" 5)))
    = 1
  /\ notifier_calls (effects_of (check Scenario.rt
       (Scenario.at_level Scenario.bus_up (Scenario.discharging 9) "low" 5)))
     = [ESend "Battery critical" "Battery at %d%%, plug in now" "critical"
              "battery-caution" (1, None);
        EClose 5 None].
Proof.
  destruct (check_alert_sent Scenario.rt
              (Scenario.at_level Scenario.bus_up (Scenario.discharging 9) "low" 5)
              9 "critical" (CriticalBattery Scenario.cfg) 1
              (snd (Send (notifier (Scenario.at_level Scenario.bus_up
                                      (Scenario.discharging 9) "low" 5))
                         "Battery critical" "Battery at %d%%, plug in now"
                         "critical" "battery-caution")))
    as (_ & _ & Hid & _ & Hc).
  - reflexivity.
  - reflexivity.
  - reflexivity.
  - discriminate.
  - discriminate.
  - reflexivity.
  - split; [exact Hid | rewrite Hc; reflexivity].
Defined.

Lemma check_on_mains_ignores_capacity_file_witness :
  effects_of (check (HB := SysfsReading_Battery Fixture.lib) Scenario.rt
                (mkMonitor Scenario.cfg
                   (mkSysfsReading Fixture.BAT1 (Fixture.machine_without_capacity "Full"))
                   (mkDBusNotifier Scenario.bus_up "Battery Monitor") "low" 1))
  = effects_of (check (HB := SysfsReading_Battery Fixture.lib) Scenario.rt
                  (mkMonitor Scenario.cfg
                     (mkSysfsReading Fixture.BAT1 (Fixture.machine "5" "Full"))
                     (mkDBusNotifier Scenario.bus_up "Battery Monitor") "low" 1)).
Proof.
  apply (check_on_mains_ignores_capacity_file Scenario.rt Fixture.lib Fixture.BAT1
           (Fixture.machine "5" "Full") (Fixture.machine_without_capacity "Full")
           Scenario.cfg (mkDBusNotifier Scenario.bus_up "Battery Monitor") "low" 1
           (String.append "Full" Fixture.newline)).
  - reflexivity.
  - reflexivity.
  - right. reflexivity.
Defined.

Lemma startup_started_witness :
  exists m,
    fst (startup Scenario.rt (Fixture.host (Fixture.machine "18" "Discharging")))
      = Started m
    /\ appName (notifier m) = "Battery Monitor"
    /\ device (battery m) = Fixture.BAT1.
Proof.
  eexists. split; [reflexivity |].
  destruct (startup_started Scenario.rt
              (Fixture.host (Fixture.machine "18" "Discharging")) _ eq_refl)
    as (_ & _ & _ & _ & _ & Happ & _).
  split; [rewrite Happ; reflexivity | reflexivity].
Defined.

Lemma main_running_witness :
  (exists m,
      fst (main Scenario.rt Fixture.lib
                (Fixture.host (Fixture.machine "18" "Discharging"))
                [Fixture.machine "9" "Discharging"; Fixture.machine "9" "Charging"])
        = Polling m
      /\ known_level (currentLevel m))
  /\ (exists m,
         fst (main Scenario.rt Fixture.lib
                   (Fixture.host_interval (-3) (Fixture.machine "18" "Discharging"))
                   [Fixture.machine "9" "Discharging"; Fixture.machine "9" "Charging"])
           = Crashed "non-positive interval for NewTicker" m
         /\ List.length (List.filter is_status
              (snd (main Scenario.rt Fixture.lib
                         (Fixture.host_interval (-3) (Fixture.machine "18" "Discharging"))
                         [Fixture.machine "9" "Discharging"; Fixture.machine "9" "Charging"])))
            = 1%nat).
Proof.
  split.
  - destruct (main_running Scenario.rt Fixture.lib
                (Fixture.host (Fixture.machine "18" "Discharging"))
                [Fixture.machine "9" "Discharging"; Fixture.machine "9" "Charging"]
                _ eq_refl)
      as (m & Hm & _ & _ & _ & Hk & _).
    exists m. split; [exact Hm | exact Hk].
  - destruct (main_running Scenario.rt Fixture.lib
                (Fixture.host_interval (-3) (Fixture.machine "18" "Discharging"))
                [Fixture.machine "9" "Discharging"; Fixture.machine "9" "Charging"]
                _ eq_refl)
      as (m & Hm & Hn & _).
    exists m. split; [exact Hm | exact Hn].
Defined.

(** The fixtures behave as the sysfs files they stand for: BAT0 lacks its
    status file and is passed over, the capacity file is read as a number,
    the ticker's interval is in nanoseconds and wraps around in [int64], and
    the daemon started on the fixtures alerts, escalates and clears. *)
Example fixture_machine :
  fst (Sysfs.NewSysfsBattery Scenario.rt (Fixture.machine "87" "Discharging"))
    = (Some Fixture.BAT1, None)
  /\ Sysfs.Capacity Fixture.lib (Fixture.machine "87" "Discharging") Fixture.BAT1
     = (87, None)
  /\ Sysfs.IsCharging Fixture.lib (Fixture.machine "87" "Not charging") Fixture.BAT1
     = (false, None)
  /\ fst (startup Scenario.rt (Fixture.host Fixture.desktop))
     = Fatal "Failed to find battery: %v" (errorString "no battery found")
  /\ tickerInterval 5 = 5000000000
  /\ tickerInterval (-3) = -3000000000
  /\ tickerInterval 9223372037 = -9223372036709551616
  /\ notifier_calls
       (snd (main Scenario.rt Fixture.lib
               (Fixture.host (Fixture.machine "18" "Discharging"))
               [Fixture.machine "9" "Discharging"; Fixture.machine "9" "Charging"]))
     = [ESend "Battery low" "Battery at %d%%" "critical" "battery-low" (1, None);
        ESend "Battery critical" "Battery at %d%%, plug in now" "critical"
              "battery-caution" (2, None);
        EClose 1 None;
        EClose 2 None].
Proof. repeat split; reflexivity. Qed.
